(** * django-localflavor: Dutch (nl) validators and the Maltese (mt) postal code field

    A shallow embedding of [localflavor/nl/validators.py] and
    [localflavor/mt/forms.py].

    Text is a list of characters.  Characters are code points 0..255
    ([ascii]); on that range the classes of Python's [re] module are the same
    for every interpreter the code supports except [\s], which is taken as
    Python 3 has it for [str] patterns.

    A call of a validator either returns ([Ok tt]) or raises: a
    [ValidationError] carrying its message, or an exception the validator does
    not catch ([ValueError] from [int], [IndexError] from indexing).
    The deprecation warnings that the constructors emit do not influence the
    outcome of a call and are left out. *)

From Stdlib Require Import List Ascii String ZArith Lia Bool Arith.
Import ListNotations.

Local Open Scope bool_scope.

(** ** Characters and text *)

Definition text := list ascii.

Definition str (s : string) : text := list_ascii_of_string s.

Definition code (c : ascii) : N := N_of_ascii c.

(** A character range [lo-hi] of a regular expression class. *)
Definition in_range (lo hi c : ascii) : bool :=
  (code lo <=? code c)%N && (code c <=? code hi)%N.

Definition LF : ascii := "010"%char.

(** [\d] on code points 0..255: the decimal digits 0-9. *)
Definition is_digit : ascii -> bool := in_range "0" "9".

(** [\s] on code points 0..255 (Python 3, [str] pattern): the characters for
    which [str.isspace] holds, 0x09-0x0D, 0x1C-0x20, 0x85 and 0xA0. *)
Definition is_space (c : ascii) : bool :=
  let n := code c in
  ((9 <=? n) && (n <=? 13) || (28 <=? n) && (n <=? 32) || (n =? 133) || (n =? 160))%N.

(** The white space that [int] skips around a number, on code points
    0..255: what C's [isspace] takes (0x09-0x0D and 0x20) and the Unicode
    white space beyond ASCII (0x85 and 0xA0).  Unlike [\s], not 0x1C-0x1F. *)
Definition is_int_space (c : ascii) : bool :=
  let n := code c in
  ((9 <=? n) && (n <=? 13) || (n =? 32) || (n =? 133) || (n =? 160))%N.

Definition ascii_eqb (a b : ascii) : bool := (code a =? code b)%N.

Fixpoint text_eqb (s t : text) : bool :=
  match s, t with
  | [], [] => true
  | a :: s', b :: t' => ascii_eqb a b && text_eqb s' t'
  | _, _ => false
  end.

(** ** Regular expressions: the part of Python's [re] that the code uses *)

Module Re.

Inductive regex : Type :=
| Void : regex
| Eps : regex
| Cls : (ascii -> bool) -> regex
| Seq : regex -> regex -> regex
| Alt : regex -> regex -> regex
| Star : regex -> regex.

(** [r?], [r+] and [r{n}]. *)
Definition Opt (r : regex) : regex := Alt r Eps.
Definition Plus (r : regex) : regex := Seq r (Star r).
Fixpoint Rep (n : nat) (r : regex) : regex :=
  match n with
  | O => Eps
  | S k => Seq r (Rep k r)
  end.

Definition Chr (c : ascii) : regex := Cls (ascii_eqb c).

Fixpoint nullable (r : regex) : bool :=
  match r with
  | Void => false
  | Eps => true
  | Cls _ => false
  | Seq r1 r2 => nullable r1 && nullable r2
  | Alt r1 r2 => nullable r1 || nullable r2
  | Star _ => true
  end.

Fixpoint deriv (a : ascii) (r : regex) : regex :=
  match r with
  | Void => Void
  | Eps => Void
  | Cls f => if f a then Eps else Void
  | Seq r1 r2 =>
      if nullable r1 then Alt (Seq (deriv a r1) r2) (deriv a r2)
      else Seq (deriv a r1) r2
  | Alt r1 r2 => Alt (deriv a r1) (deriv a r2)
  | Star r1 => Seq (deriv a r1) (Star r1)
  end.

(** A compiled pattern: the body with its anchors.  [bol] is a leading [^],
    [eol] a trailing [$]. *)
Record pattern : Type := Pattern { bol : bool; body : regex; eol : bool }.

(** Where [$] matches (no MULTILINE flag): at the end of the text and just
    before a line feed that is the last character. *)
Definition at_eol (rest : text) : bool :=
  match rest with
  | [] => true
  | [c] => ascii_eqb c LF
  | _ => false
  end.

Definition end_ok (p : pattern) (rest : text) : bool :=
  if eol p then at_eol rest else true.

(** Does a match of the pattern's body start at the head of [s]? *)
Fixpoint match_here (p : pattern) (r : regex) (s : text) : bool :=
  nullable r && end_ok p s
  || match s with
     | [] => false
     | a :: s' => match_here p (deriv a r) s'
     end.

Fixpoint scan (p : pattern) (s : text) (i : nat) : option nat :=
  if match_here p (body p) s then Some i
  else match s with
       | [] => None
       | _ :: s' => scan p s' (S i)
       end.

(** [re.search]: the start of the leftmost match, [None] when there is none. *)
Definition search (p : pattern) (s : text) : option nat :=
  if bol p then (if match_here p (body p) s then Some 0 else None)
  else scan p s 0.

Definition found (m : option nat) : bool :=
  match m with Some _ => true | None => false end.

(** The language of a regular expression. *)
Inductive matches : regex -> text -> Prop :=
| MEps : matches Eps []
| MCls f a : f a = true -> matches (Cls f) [a]
| MSeq r1 r2 s1 s2 : matches r1 s1 -> matches r2 s2 -> matches (Seq r1 r2) (s1 ++ s2)
| MAltL r1 r2 s : matches r1 s -> matches (Alt r1 r2) s
| MAltR r1 r2 s : matches r2 s -> matches (Alt r1 r2) s
| MStar0 r : matches (Star r) []
| MStarS r s1 s2 : matches r s1 -> matches (Star r) s2 -> matches (Star r) (s1 ++ s2).

End Re.

(** ** Outcomes of a call *)

Inductive exn : Type :=
| ValidationError (message : string)
| ValueError
| IndexError.

Inductive result (A : Type) : Type :=
| Ok (a : A)
| Raise (e : exn).

Arguments Ok {A} a.
Arguments Raise {A} e.

Definition bind {A B : Type} (m : result A) (k : A -> result B) : result B :=
  match m with
  | Ok a => k a
  | Raise e => Raise e
  end.

Notation "x <- m ;; k" := (bind m (fun x => k))
  (at level 61, m at next level, right associativity).
Notation "m ;;; k" := (bind m (fun _ => k))
  (at level 61, right associativity).

(** The exceptions that are not validation errors. *)
Definition uncaught (e : exn) : Prop := e = ValueError \/ e = IndexError.

(** A result with the message of its validation error, if it is one,
    replaced by [m]. *)
Definition relabel (m : string) (r : result unit) : result unit :=
  match r with
  | Raise (ValidationError _) => Raise (ValidationError m)
  | _ => r
  end.

(** ** Python built-ins *)

Module Py.

(** [s[i]] for an integer [i]; a negative index counts from the end. *)
Definition index (s : text) (i : Z) : result ascii :=
  let n := Z.of_nat (List.length s) in
  let j := if (i <? 0)%Z then (n + i)%Z else i in
  if (j <? 0)%Z then Raise IndexError
  else match nth_error s (Z.to_nat j) with
       | Some c => Ok c
       | None => Raise IndexError
       end.

Fixpoint range_from (len : nat) (start step : Z) : list Z :=
  match len with
  | O => []
  | S k => start :: range_from k (start + step)%Z step
  end.

(** [range(start, stop, step)]. *)
Definition range (start stop step : Z) : list Z :=
  if (0 <? step)%Z then range_from (Z.to_nat ((stop - start + step - 1) / step)) start step
  else if (step <? 0)%Z then range_from (Z.to_nat ((start - stop - step - 1) / (- step))) start step
  else [].

Fixpoint lstrip (s : text) : text :=
  match s with
  | [] => []
  | c :: s' => if is_int_space c then lstrip s' else s
  end.

(** The text without the white space that [int] skips at both ends. *)
Definition strip (s : text) : text := rev (lstrip (rev (lstrip s))).

Definition digit_val (c : ascii) : Z := (Z.of_N (code c) - 48)%Z.

Fixpoint digits_val (acc : Z) (s : text) : Z :=
  match s with
  | [] => acc
  | c :: s' => digits_val (acc * 10 + digit_val c)%Z s'
  end.

Definition unsigned_int (s : text) : result Z :=
  match s with
  | [] => Raise ValueError
  | _ => if forallb is_digit s then Ok (digits_val 0 s) else Raise ValueError
  end.

(** [int(s)] for text [s], base 10: surrounding white space is dropped, one
    sign is allowed, the rest must be a non-empty run of digits.  (Digit
    grouping with [_] is left out: the validators convert only characters that
    a digit pattern has let through, next to a final line feed.) *)
Definition int (s : text) : result Z :=
  match strip s with
  | "+"%char :: s' => unsigned_int s'
  | "-"%char :: s' => n <- unsigned_int s' ;; Ok (- n)%Z
  | s' => unsigned_int s'
  end.

(** [sum] of a list of integers. *)
Definition sum (l : list Z) : Z := fold_left Z.add l 0%Z.

(** A list comprehension [[f x for x in l]] whose body may raise. *)
Fixpoint comprehension {A B : Type} (f : A -> result B) (l : list A) : result (list B) :=
  match l with
  | [] => Ok []
  | x :: l' => y <- f x ;; ys <- comprehension f l' ;; Ok (y :: ys)
  end.

(** [re.sub(cls, '', s)] for a pattern that is one character class. *)
Definition sub_class_empty (cls : ascii -> bool) (s : text) : text :=
  filter (fun c => negb (cls c)) s.

End Py.

(** ** django.core.validators.RegexValidator *)

(** [RegexValidator.__call__] with [inverse_match] unset: the value is
    rejected with the validator's message when [regex.search] finds nothing. *)
Definition RegexValidator_call (regex : Re.pattern) (message : string) (value : text)
  : result unit :=
  if Re.found (Re.search regex value) then Ok tt
  else Raise (ValidationError message).

(** ** localflavor.nl.validators *)

Module NLZipCodeFieldValidator.

Definition error_message : string := "Enter a valid zip code.".

(** [^\d{4} ?[A-Z]{2}$] *)
Definition regex : Re.pattern :=
  Re.Pattern true
    (Re.Seq (Re.Rep 4 (Re.Cls is_digit))
       (Re.Seq (Re.Opt (Re.Chr " ")) (Re.Rep 2 (Re.Cls (in_range "A" "Z")))))
    true.

Definition call (value : text) : result unit :=
  RegexValidator_call regex error_message value ;;;
  n <- Py.int (firstn 4 value) ;;
  if (n <? 1000)%Z then Raise (ValidationError error_message) else Ok tt.

End NLZipCodeFieldValidator.

Module NLBSNFieldValidator.

(** The instance: [error_message] is the class attribute as the instance's
    class resolves it, [regex] and [message] are set by [__init__]. *)
Record self : Type := Self {
  error_message : string;
  regex : Re.pattern;
  message : string
}.

(** [^\d{9}$] *)
Definition bsn_regex : Re.pattern :=
  Re.Pattern true (Re.Rep 9 (Re.Cls is_digit)) true.

(** [__init__], for a class whose [error_message] attribute is [cls_error_message]. *)
Definition init (cls_error_message : string) : self :=
  Self cls_error_message bsn_regex cls_error_message.

Definition cls_error_message : string := "Enter a valid BSN.".

Definition new : self := init cls_error_message.

(** The loop [for i in range(9, 1, -1): checksum += int(value[9 - i]) * i]. *)
Fixpoint checksum_loop (value : text) (range : list Z) (checksum : Z) : result Z :=
  match range with
  | [] => Ok checksum
  | i :: range' =>
      c <- Py.index value (9 - i) ;;
      d <- Py.int [c] ;;
      checksum_loop value range' (checksum + d * i)%Z
  end.

Definition bsn_checksum_ok (value : text) : result bool :=
  checksum <- checksum_loop value (Py.range 9 1 (-1)) 0%Z ;;
  c <- Py.index value (-1) ;;
  d <- Py.int [c] ;;
  Ok ((checksum - d) mod 11 =? 0)%Z.

Definition call (s : self) (value : text) : result unit :=
  RegexValidator_call (regex s) (message s) value ;;;
  n <- Py.int value ;;
  (if (n =? 0)%Z then Raise (ValidationError (error_message s)) else Ok tt) ;;;
  ok <- bsn_checksum_ok value ;;
  if negb ok then Raise (ValidationError (error_message s)) else Ok tt.

End NLBSNFieldValidator.

Module NLSoFiNumberFieldValidator.

(** The subclass overrides the class attribute and inherits [__call__]. *)
Definition cls_error_message : string := "Enter a valid SoFi number.".

Definition new : NLBSNFieldValidator.self :=
  NLBSNFieldValidator.init cls_error_message.

Definition sofi_checksum_ok (value : text) : result bool :=
  NLBSNFieldValidator.bsn_checksum_ok value.

Definition call (value : text) : result unit :=
  NLBSNFieldValidator.call new value.

End NLSoFiNumberFieldValidator.

Module NLPhoneNumberFieldValidator.

Definition error_message : string := "Enter a valid phone number.".

(** The class [[\-\s\(\)]]. *)
Definition stripped_class (c : ascii) : bool :=
  ascii_eqb c "-" || is_space c || ascii_eqb c "(" || ascii_eqb c ")".

(** [^\d+$] *)
Definition numeric_re : Re.pattern :=
  Re.Pattern true (Re.Plus (Re.Cls is_digit)) true.

Definition call (value : text) : result unit :=
  let phone_nr := Py.sub_class_empty stripped_class value in
  if (List.length phone_nr =? 10)%nat && Re.found (Re.search numeric_re phone_nr) then Ok tt
  else if text_eqb (firstn 3 phone_nr) (str "+31")
          && (List.length phone_nr =? 12)%nat
          && Re.found (Re.search numeric_re (skipn 3 phone_nr)) then Ok tt
  else Raise (ValidationError error_message).

End NLPhoneNumberFieldValidator.

Module NLBankAccountNumberFieldValidator.

Definition invalid : string := "Enter a valid bank account number.".
Definition wrong_length : string := "Bank account numbers have 1 - 7, 9 or 10 digits.".

(** [^[0-9]+$] *)
Definition regex : Re.pattern :=
  Re.Pattern true (Re.Plus (Re.Cls (in_range "0" "9"))) true.

(** [[1-9]+] *)
Definition no_leading_zeros_regex : Re.pattern :=
  Re.Pattern false (Re.Plus (Re.Cls (in_range "1" "9"))) false.

(** [sum([int(a) * b for a, b in zip(value, range(1, 11))])] *)
Definition eleven_test_sum (value : text) : result Z :=
  l <- Py.comprehension (fun ab : ascii * Z => a <- Py.int [fst ab] ;; Ok (a * snd ab)%Z)
         (combine value (Py.range 1 11 1)) ;;
  Ok (Py.sum l).

Definition call (value : text) : result unit :=
  RegexValidator_call regex invalid value ;;;
  if (10 <? List.length value)%nat then Raise (ValidationError wrong_length)
  else
    match Re.search no_leading_zeros_regex value with
    | None => Raise (ValidationError invalid)
    | Some start =>
        let value := skipn start value in
        let len := List.length value in
        if negb (len =? 9)%nat && negb (len =? 10)%nat
           && negb ((1 <=? len)%nat && (len <=? 7)%nat)
        then Raise (ValidationError wrong_length)
        else if (len =? 9)%nat || (len =? 10)%nat then
          let value := if (len =? 9)%nat then "0"%char :: value else value in
          eleven_test_sum <- eleven_test_sum value ;;
          if negb (eleven_test_sum mod 11 =? 0)%Z then Raise (ValidationError invalid)
          else Ok tt
        else Ok tt
    end.

End NLBankAccountNumberFieldValidator.

(** ** localflavor.mt.forms *)

Module MTPostalCodeField.

Definition invalid : string := "Enter a valid postal code in format AAA 0000.".

(** [^[A-Z]{3}\ \d{4}$] *)
Definition regex : Re.pattern :=
  Re.Pattern true
    (Re.Seq (Re.Rep 3 (Re.Cls (in_range "A" "Z")))
       (Re.Seq (Re.Chr " ") (Re.Rep 4 (Re.Cls is_digit))))
    true.

(** The message of [RegexValidator] when none is given. *)
Definition RegexValidator_message : string := "Enter a valid value.".

(** What [django.forms.RegexField] does with a non-empty text value: it does
    not strip it, runs the [RegexValidator] built from the field's regex, and
    reports a [ValidationError] of code [invalid] with the field's own
    [invalid] message.  (The handling of empty values by the form field is
    Django's and is the same for every field.) *)
Definition validate (value : text) : result unit :=
  match RegexValidator_call regex RegexValidator_message value with
  | Raise (ValidationError _) => Raise (ValidationError invalid)
  | r => r
  end.

End MTPostalCodeField.

(** ** The rules in the words of the specification *)

Module Spec.

Definition accepted (r : result unit) : Prop := r = Ok tt.
Definition rejected (message : string) (r : result unit) : Prop :=
  r = Raise (ValidationError message).

(** The value of the digit at position [i] (0 is the leftmost). *)
Definition digit (s : text) (i : nat) : Z := Py.digit_val (nth i s "0"%char).

Definition all_digits (s : text) : Prop := Forall (fun c => is_digit c = true) s.

(** The number that a run of digits denotes. *)
Definition number (s : text) : Z :=
  fold_left (fun acc c => (10 * acc + Py.digit_val c)%Z) s 0%Z.

Fixpoint sum_over (l : list nat) (f : nat -> Z) : Z :=
  match l with
  | [] => 0%Z
  | i :: l' => (f i + sum_over l' f)%Z
  end.

(** BSN: [sum(digit[i] * (9 - i)) for i in 0..7], minus [digit[8]]. *)
Definition bsn_sum (s : text) : Z :=
  (sum_over (seq 0 8) (fun i => digit s i * (9 - Z.of_nat i)) - digit s 8)%Z.

(** Bank account: [sum(digit[i] * (i + 1))] over positions 0..9. *)
Definition eleven_sum (s : text) : Z :=
  sum_over (seq 0 10) (fun i => digit s i * (Z.of_nat i + 1))%Z.

Fixpoint strip_leading_zeros (s : text) : text :=
  match s with
  | [] => []
  | c :: s' => if ascii_eqb c "0" then strip_leading_zeros s' else s
  end.

(** A value of nine digits left-padded with a single "0". *)
Definition pad10 (s : text) : text :=
  if (List.length s =? 9)%nat then "0"%char :: s else s.

(** The length message as the specification spells it. *)
Definition length_message : string := "Bank account numbers have 1-7, 9 or 10 digits.".

Definition is_upper (c : ascii) : bool := in_range "A" "Z" c.

(** Four digits, then possibly one space, then two uppercase letters. *)
Definition NNNN_AA (s : text) : Prop :=
  exists a b c d e f,
    (s = [a; b; c; d; e; f] \/ s = [a; b; c; d; " "%char; e; f])
    /\ is_digit a = true /\ is_digit b = true /\ is_digit c = true /\ is_digit d = true
    /\ is_upper e = true /\ is_upper f = true.

(** Three uppercase letters, one space, four digits. *)
Definition AAA_0000 (s : text) : Prop :=
  exists a b c d e f g,
    s = [a; b; c; " "%char; d; e; f; g]
    /\ is_upper a = true /\ is_upper b = true /\ is_upper c = true
    /\ is_digit d = true /\ is_digit e = true /\ is_digit f = true /\ is_digit g = true.

(** The phone number rule on the stripped value. *)
Definition phone_ok (s : text) : Prop :=
  (List.length s = 10 /\ all_digits s)
  \/ (exists r, s = str "+31" ++ r /\ List.length r = 9 /\ all_digits r).

(** The characters the phone rule strips: '-', white space, '(' and ')'. *)
Definition phone_stripped (c : ascii) : bool :=
  match c with
  | "-"%char | "("%char | ")"%char => true
  | _ => is_space c
  end.

Fixpoint remove_chars (drop : ascii -> bool) (s : text) : text :=
  match s with
  | [] => []
  | c :: s' => if drop c then remove_chars drop s' else c :: remove_chars drop s'
  end.

End Spec.

(** ** The matcher computes the language of its expression *)

Module ReFacts.
Import Re.

Lemma matches_Void s : matches Void s -> False.
Proof. intros H; inversion H. Qed.

Lemma matches_Eps s : matches Eps s -> s = [].
Proof. intros H; inversion H; reflexivity. Qed.

Lemma matches_Cls f s : matches (Cls f) s -> exists a, s = [a] /\ f a = true.
Proof. intros H; inversion H; subst; eauto. Qed.

Lemma matches_Seq r1 r2 s :
  matches (Seq r1 r2) s -> exists s1 s2, s = s1 ++ s2 /\ matches r1 s1 /\ matches r2 s2.
Proof. intros H; inversion H; subst; eauto. Qed.

Lemma matches_Alt r1 r2 s : matches (Alt r1 r2) s -> matches r1 s \/ matches r2 s.
Proof. intros H; inversion H; subst; auto. Qed.

Lemma matches_Star_cons r a s :
  matches (Star r) (a :: s) ->
  exists s1 s2, s = s1 ++ s2 /\ matches r (a :: s1) /\ matches (Star r) s2.
Proof.
  intros H. remember (Star r) as r' eqn:Er. remember (a :: s) as t eqn:Et.
  revert a s Et. induction H; intros a0 s0 Et; try discriminate.
  injection Er as ->.
  destruct s1 as [|b s1].
  - simpl in Et. apply IHmatches2; auto.
  - simpl in Et. injection Et as -> <-. exists s1, s2. auto.
Qed.

Lemma nullable_matches r : nullable r = true <-> matches r [].
Proof.
  induction r; simpl.
  - split; [discriminate | intros H; inversion H].
  - split; [constructor | reflexivity].
  - split; [discriminate | intros H; inversion H].
  - rewrite andb_true_iff, IHr1, IHr2. split.
    + intros [H1 H2]. apply (MSeq _ _ [] []); assumption.
    + intros H. apply matches_Seq in H. destruct H as (s1 & s2 & E & H1 & H2).
      symmetry in E. apply app_eq_nil in E. destruct E; subst. auto.
  - rewrite orb_true_iff, IHr1, IHr2. split.
    + intros [H | H]; [apply MAltL | apply MAltR]; assumption.
    + apply matches_Alt.
  - split; [constructor | reflexivity].
Qed.

Lemma deriv_matches r : forall a s, matches (deriv a r) s <-> matches r (a :: s).
Proof.
  induction r; intros a s; simpl.
  - split; intros H; inversion H.
  - split; intros H; inversion H.
  - destruct (b a) eqn:E; split; intros H.
    + apply matches_Eps in H. subst. constructor. assumption.
    + apply matches_Cls in H. destruct H as (c & Hc & Hb).
      injection Hc as _ ->. constructor.
    + inversion H.
    + apply matches_Cls in H. destruct H as (c & Hc & Hb).
      injection Hc as -> _. congruence.
  - assert (Hseq : matches (Seq (deriv a r1) r2) s <->
                   exists s1 s2, s = s1 ++ s2 /\ matches r1 (a :: s1) /\ matches r2 s2).
    { split.
      - intros H. apply matches_Seq in H. destruct H as (s1 & s2 & E & H1 & H2).
        exists s1, s2. rewrite <- IHr1. auto.
      - intros (s1 & s2 & E & H1 & H2). subst. constructor; [apply IHr1|]; assumption. }
    destruct (nullable r1) eqn:N.
    + split; intros H.
      * apply matches_Alt in H. destruct H as [H | H].
        -- apply Hseq in H. destruct H as (s1 & s2 & E & H1 & H2). subst.
           apply (MSeq _ _ (a :: s1) s2); assumption.
        -- apply IHr2 in H. apply nullable_matches in N.
           apply (MSeq _ _ [] (a :: s)); assumption.
      * apply matches_Seq in H. destruct H as (s1 & s2 & E & H1 & H2).
        destruct s1 as [|c s1]; simpl in E.
        -- subst. apply MAltR. apply IHr2. assumption.
        -- injection E as <- ->. apply MAltL. apply Hseq. eauto.
    + rewrite Hseq. split.
      * intros (s1 & s2 & E & H1 & H2). subst.
        apply (MSeq _ _ (a :: s1) s2); assumption.
      * intros H. apply matches_Seq in H. destruct H as (s1 & s2 & E & H1 & H2).
        destruct s1 as [|c s1]; simpl in E.
        -- apply nullable_matches in H1. congruence.
        -- injection E as <- ->. eauto.
  - split; intros H.
    + apply matches_Alt in H. destruct H as [H | H];
        [apply MAltL, IHr1 | apply MAltR, IHr2]; assumption.
    + apply matches_Alt in H. destruct H as [H | H];
        [apply MAltL, IHr1 | apply MAltR, IHr2]; assumption.
  - split; intros H.
    + apply matches_Seq in H. destruct H as (s1 & s2 & E & H1 & H2). subst.
      apply IHr in H1. apply (MStarS _ (a :: s1) s2); assumption.
    + apply matches_Star_cons in H. destruct H as (s1 & s2 & E & H1 & H2). subst.
      constructor; [apply IHr|]; assumption.
Qed.

(** [match_here] finds a prefix in the language after which the end anchor,
    if there is one, holds. *)
Lemma match_here_spec p : forall s r,
  match_here p r s = true <->
  exists s1 s2, s = s1 ++ s2 /\ matches r s1 /\ end_ok p s2 = true.
Proof.
  induction s as [|a s IH]; intros r; simpl.
  - rewrite orb_false_r, andb_true_iff, nullable_matches. split.
    + intros [H1 H2]. exists [], []. auto.
    + intros (s1 & s2 & E & H1 & H2). symmetry in E. apply app_eq_nil in E.
      destruct E; subst. auto.
  - rewrite orb_true_iff, andb_true_iff, nullable_matches, IH. split.
    + intros [[H1 H2] | (s1 & s2 & E & H1 & H2)].
      * exists [], (a :: s). auto.
      * exists (a :: s1), s2. subst. rewrite <- deriv_matches. auto.
    + intros (s1 & s2 & E & H1 & H2). destruct s1 as [|c s1]; simpl in E.
      * subst. left. auto.
      * injection E as <- ->. right. exists s1, s2. rewrite deriv_matches. auto.
Qed.

Lemma at_eol_spec rest : at_eol rest = true <-> rest = [] \/ rest = [LF].
Proof.
  destruct rest as [|c [|d rest]]; simpl.
  - split; auto.
  - unfold ascii_eqb, code. rewrite N.eqb_eq. split.
    + intros H. right. f_equal. rewrite <- (ascii_N_embedding c), H. reflexivity.
    + intros [H | H]; [discriminate | injection H as ->; reflexivity].
  - split; [discriminate | intros [H | H]; discriminate].
Qed.

(** A pattern [^r$] is found in the texts of [r]'s language and in those
    followed by one line feed. *)
Lemma search_anchored r s :
  found (search (Pattern true r true) s) = true <->
  matches r s \/ exists s', s = s' ++ [LF] /\ matches r s'.
Proof.
  unfold search. simpl.
  destruct (match_here (Pattern true r true) r s) eqn:E; simpl.
  - split; [intros _ | reflexivity].
    apply match_here_spec in E. destruct E as (s1 & s2 & -> & H1 & H2).
    unfold end_ok in H2. simpl in H2. apply at_eol_spec in H2.
    destruct H2 as [-> | ->]; [left; rewrite app_nil_r | right; exists s1]; auto.
  - split; [discriminate |].
    intros H. rewrite <- E. apply match_here_spec.
    destruct H as [H | (s' & -> & H)].
    + exists s, []. rewrite app_nil_r. auto.
    + exists s', [LF]. auto.
Qed.

End ReFacts.

(** ** Characters, classes and [int] *)

Module PyFacts.

Lemma code_inj a b : code a = code b -> a = b.
Proof.
  unfold code. intros H.
  rewrite <- (ascii_N_embedding a), <- (ascii_N_embedding b), H. reflexivity.
Qed.

Lemma ascii_eqb_eq a b : ascii_eqb a b = true <-> a = b.
Proof.
  unfold ascii_eqb. rewrite N.eqb_eq. split; [apply code_inj | intros ->; reflexivity].
Qed.

Lemma text_eqb_eq s : forall t, text_eqb s t = true <-> s = t.
Proof.
  induction s as [|a s IH]; intros [|b t]; simpl; try (split; [discriminate | discriminate]).
  - split; reflexivity.
  - rewrite andb_true_iff, ascii_eqb_eq, IH. split.
    + intros [-> ->]. reflexivity.
    + intros H. injection H as -> ->. auto.
Qed.

Lemma in_range_spec lo hi c :
  in_range lo hi c = true <-> (code lo <= code c <= code hi)%N.
Proof. unfold in_range. rewrite andb_true_iff, !N.leb_le. tauto. Qed.

Lemma is_digit_spec c : is_digit c = true <-> (48 <= code c <= 57)%N.
Proof. unfold is_digit. rewrite in_range_spec. reflexivity. Qed.

Lemma is_int_space_spec c :
  is_int_space c = true <->
  (9 <= code c <= 13 \/ code c = 32 \/ code c = 133 \/ code c = 160)%N.
Proof.
  unfold is_int_space. cbv zeta.
  rewrite !orb_true_iff, !andb_true_iff, !N.leb_le, !N.eqb_eq. tauto.
Qed.

Lemma digit_not_space c : is_digit c = true -> is_int_space c = false.
Proof.
  intros H. apply is_digit_spec in H.
  destruct (is_int_space c) eqn:E; [|reflexivity].
  apply is_int_space_spec in E. lia.
Qed.

Lemma is_digit_cases c : is_digit c = true -> In c (str "0123456789").
Proof.
  destruct c as [[] [] [] [] [] [] [] []]; intros H; try discriminate H;
    simpl; repeat first [left; reflexivity | right].
Qed.

Lemma forallb_rev (f : ascii -> bool) s : forallb f (rev s) = forallb f s.
Proof.
  induction s as [|a s IH]; simpl; [reflexivity|].
  rewrite forallb_app, IH. simpl. rewrite andb_true_r. apply andb_comm.
Qed.

Lemma lstrip_digits s : forallb is_digit s = true -> Py.lstrip s = s.
Proof.
  destruct s as [|c s]; simpl; [reflexivity|].
  intros H. apply andb_true_iff in H. destruct H as [H _].
  rewrite (digit_not_space _ H). reflexivity.
Qed.

Lemma strip_digits s : forallb is_digit s = true -> Py.strip s = s.
Proof.
  intros H. unfold Py.strip. rewrite (lstrip_digits s H).
  rewrite lstrip_digits by (rewrite forallb_rev; exact H).
  apply rev_involutive.
Qed.

(** [int] of a non-empty run of digits is the number the digits denote. *)
Lemma int_digits s :
  s <> [] -> forallb is_digit s = true -> Py.int s = Ok (Py.digits_val 0 s).
Proof.
  intros Hne H.
  assert (E : Py.int s = Py.unsigned_int s).
  { unfold Py.int. rewrite (strip_digits s H).
    destruct s as [|c s]; [contradiction|].
    assert (Hc : is_digit c = true) by (simpl in H; apply andb_true_iff in H; tauto).
    apply is_digit_cases in Hc. simpl in Hc.
    repeat (destruct Hc as [<- | Hc]; [reflexivity|]). contradiction. }
  rewrite E. unfold Py.unsigned_int. rewrite H.
  destruct s; [contradiction | reflexivity].
Qed.

Lemma int_digit c : is_digit c = true -> Py.int [c] = Ok (Py.digit_val c).
Proof.
  intros H. rewrite int_digits; [| discriminate | simpl; rewrite H; reflexivity].
  simpl. reflexivity.
Qed.

(** A trailing line feed is white space for [int]. *)
Lemma int_digits_LF s :
  s <> [] -> forallb is_digit s = true -> Py.int (s ++ [LF]) = Py.int s.
Proof.
  intros Hne H. unfold Py.int, Py.strip.
  assert (E : Py.lstrip (s ++ [LF]) = s ++ [LF]).
  { destruct s as [|c s]; [contradiction|]. simpl in *.
    apply andb_true_iff in H. rewrite (digit_not_space c); tauto. }
  rewrite E, rev_app_distr. simpl.
  rewrite (lstrip_digits s H).
  reflexivity.
Qed.

Lemma digits_val_number s : forall acc,
  Py.digits_val acc s = fold_left (fun a c => (10 * a + Py.digit_val c)%Z) s acc.
Proof.
  induction s as [|c s IH]; intros acc; cbn [Py.digits_val fold_left]; [reflexivity|].
  rewrite IH. f_equal. lia.
Qed.

Lemma all_digits_forallb s : Spec.all_digits s <-> forallb is_digit s = true.
Proof.
  unfold Spec.all_digits. rewrite forallb_forall, Forall_forall. reflexivity.
Qed.

Lemma int_number s :
  s <> [] -> Spec.all_digits s -> Py.int s = Ok (Spec.number s).
Proof.
  intros Hne H. apply all_digits_forallb in H.
  rewrite (int_digits s Hne H). unfold Spec.number. rewrite digits_val_number. reflexivity.
Qed.

End PyFacts.

(** ** The languages of the class expressions the patterns are built from *)

Module ClassFacts.
Import Re ReFacts.

Lemma matches_Star_Cls f s : matches (Star (Cls f)) s <-> forallb f s = true.
Proof.
  split.
  - intros H. remember (Star (Cls f)) as r eqn:Er.
    induction H; try discriminate; [reflexivity|].
    injection Er as ->. apply matches_Cls in H. destruct H as (a & -> & Ha).
    simpl. rewrite Ha. apply IHmatches2. reflexivity.
  - induction s as [|a s IH]; simpl; intros H; [constructor|].
    apply andb_true_iff in H. destruct H as [Ha Hs].
    apply (MStarS _ [a] s); [constructor; assumption | auto].
Qed.

Lemma matches_Plus_Cls f s : matches (Plus (Cls f)) s <-> s <> [] /\ forallb f s = true.
Proof.
  unfold Plus. split.
  - intros H. apply matches_Seq in H. destruct H as (s1 & s2 & -> & H1 & H2).
    apply matches_Cls in H1. destruct H1 as (a & -> & Ha).
    apply matches_Star_Cls in H2. simpl. rewrite Ha, H2. split; [discriminate | reflexivity].
  - intros [Hne H]. destruct s as [|a s]; [contradiction|].
    simpl in H. apply andb_true_iff in H. destruct H as [Ha Hs].
    apply (MSeq _ _ [a] s); [constructor; assumption | apply matches_Star_Cls; assumption].
Qed.

Lemma matches_Rep_Cls f n : forall s,
  matches (Rep n (Cls f)) s <-> List.length s = n /\ forallb f s = true.
Proof.
  induction n as [|n IH]; intros s; simpl.
  - split.
    + intros H. apply matches_Eps in H. subst. auto.
    + intros [H _]. destruct s; [constructor | discriminate].
  - split.
    + intros H. apply matches_Seq in H. destruct H as (s1 & s2 & -> & H1 & H2).
      apply matches_Cls in H1. destruct H1 as (a & -> & Ha).
      apply IH in H2. destruct H2 as [<- H2]. simpl. rewrite Ha, H2. auto.
    + intros [Hl H]. destruct s as [|a s]; [discriminate|].
      simpl in *. apply andb_true_iff in H. destruct H as [Ha Hs].
      apply (MSeq _ _ [a] s); [constructor; assumption|].
      apply IH. split; [lia | assumption].
Qed.

(** A fixed run of class characters followed by [r]: the run is the first
    [n] characters, [r] matches what is left. *)
Lemma matches_Rep_Cls_then f n r s :
  matches (Seq (Rep n (Cls f)) r) s <->
  n <= List.length s /\ forallb f (firstn n s) = true /\ matches r (skipn n s).
Proof.
  split.
  - intros H. apply matches_Seq in H. destruct H as (s1 & s2 & -> & H1 & H2).
    apply matches_Rep_Cls in H1. destruct H1 as [<- H1].
    rewrite length_app, firstn_app, skipn_app, Nat.sub_diag, firstn_all, skipn_all.
    simpl. rewrite app_nil_r. split; [lia | auto].
  - intros (Hl & Hf & Hr). rewrite <- (firstn_skipn n s).
    constructor; [|assumption]. apply matches_Rep_Cls.
    split; [apply firstn_length_le; assumption | assumption].
Qed.

Lemma matches_Chr c s : matches (Chr c) s <-> s = [c].
Proof.
  unfold Chr. split.
  - intros H. apply matches_Cls in H. destruct H as (a & -> & Ha).
    apply PyFacts.ascii_eqb_eq in Ha. subst. reflexivity.
  - intros ->. constructor. apply PyFacts.ascii_eqb_eq. reflexivity.
Qed.

Lemma matches_Chr_then c r s :
  matches (Seq (Chr c) r) s <-> exists s', s = c :: s' /\ matches r s'.
Proof.
  split.
  - intros H. apply matches_Seq in H. destruct H as (s1 & s2 & -> & H1 & H2).
    apply matches_Chr in H1. subst. exists s2. auto.
  - intros (s' & -> & H). apply (MSeq _ _ [c] s'); [apply matches_Chr; reflexivity | assumption].
Qed.

Lemma matches_Opt_Chr_then c r s :
  matches (Seq (Opt (Chr c)) r) s <-> matches r s \/ exists s', s = c :: s' /\ matches r s'.
Proof.
  unfold Opt. split.
  - intros H. apply matches_Seq in H. destruct H as (s1 & s2 & -> & H1 & H2).
    apply matches_Alt in H1. destruct H1 as [H1 | H1].
    + apply matches_Chr in H1. subst. right. exists s2. auto.
    + apply matches_Eps in H1. subst. left. assumption.
  - intros [H | (s' & -> & H)].
    + apply (MSeq _ _ [] s); [apply MAltR; constructor | assumption].
    + apply (MSeq _ _ [c] s'); [apply MAltL, matches_Chr; reflexivity | assumption].
Qed.

(** [^c+$] is found in a text of the class and in such a text followed by
    one line feed. *)
Lemma search_plus_anchored f s :
  found (search (Pattern true (Plus (Cls f)) true) s) = true <->
  (s <> [] /\ forallb f s = true)
  \/ exists s', s = s' ++ [LF] /\ s' <> [] /\ forallb f s' = true.
Proof.
  rewrite search_anchored, matches_Plus_Cls.
  split; (intros [H | (s' & E & H)]; [left; assumption | right; exists s']).
  - apply matches_Plus_Cls in H. tauto.
  - rewrite matches_Plus_Cls. tauto.
Qed.

End ClassFacts.

(** ** NLZipCodeFieldValidator *)

Module ZipFacts.
Import Re ReFacts ClassFacts NLZipCodeFieldValidator.

Lemma body_leading_digits s :
  matches (body regex) s ->
  4 <= List.length s /\ forallb is_digit (firstn 4 s) = true.
Proof.
  unfold regex. cbn [body]. intros H. apply matches_Rep_Cls_then in H. tauto.
Qed.

(** The texts of the pattern's body. *)
Lemma matches_body_NNNN_AA s : matches (body regex) s <-> Spec.NNNN_AA s.
Proof.
  unfold regex, Spec.NNNN_AA, Spec.is_upper. cbn [body]. split.
  - intros H. apply matches_Rep_Cls_then in H. destruct H as (Hl & Hd & H).
    destruct s as [|a [|b [|c [|d t]]]]; simpl in Hl; try lia.
    cbn [firstn forallb] in Hd. repeat rewrite andb_true_iff in Hd.
    cbn [skipn] in H. apply matches_Opt_Chr_then in H.
    destruct H as [H | (s' & -> & H)]; apply matches_Rep_Cls in H; destruct H as [Hl' Hu].
    + destruct t as [|e [|f [|g t]]]; try discriminate Hl'.
      cbn [forallb] in Hu. repeat rewrite andb_true_iff in Hu.
      exists a, b, c, d, e, f. split; [left; reflexivity | tauto].
    + destruct s' as [|e [|f [|g t]]]; try discriminate Hl'.
      cbn [forallb] in Hu. repeat rewrite andb_true_iff in Hu.
      exists a, b, c, d, e, f. split; [right; reflexivity | tauto].
  - intros (a & b & c & d & e & f & Hs & Ha & Hb & Hc & Hd & He & Hf).
    assert (Hu : matches (Rep 2 (Cls (in_range "A" "Z"))) [e; f]).
    { apply matches_Rep_Cls. split; [reflexivity|].
      cbn [forallb]. rewrite He, Hf. reflexivity. }
    apply matches_Rep_Cls_then.
    destruct Hs as [-> | ->]; (split; [simpl; lia|]);
      (split; [cbn [firstn forallb]; rewrite Ha, Hb, Hc, Hd; reflexivity|]);
      apply matches_Opt_Chr_then; cbn [skipn].
    + left. assumption.
    + right. exists [e; f]. auto.
Qed.

(** What the pattern finds: the format, and the format followed by one line
    feed. *)
Lemma found_regex_shape value :
  found (search regex value) = true <->
  Spec.NNNN_AA value \/ exists s, value = s ++ [LF] /\ Spec.NNNN_AA s.
Proof.
  rewrite (search_anchored (body regex) value).
  split; (intros [H | (s & E & H)]; apply matches_body_NNNN_AA in H;
          [left | right; exists s]; auto).
Qed.

(** After the pattern has matched, [value[:4]] is four digits. *)
Lemma found_leading_digits value :
  found (search regex value) = true ->
  List.length (firstn 4 value) = 4 /\ forallb is_digit (firstn 4 value) = true.
Proof.
  intros H. apply (search_anchored (body regex)) in H.
  destruct H as [H | (s & -> & H)]; apply body_leading_digits in H; destruct H as [Hl Hd].
  - split; [apply firstn_length_le; assumption | assumption].
  - rewrite firstn_app. replace (4 - List.length s) with 0 by lia.
    rewrite firstn_O, app_nil_r.
    split; [apply firstn_length_le; assumption | assumption].
Qed.

Lemma int_leading value :
  found (search regex value) = true ->
  Py.int (firstn 4 value) = Ok (Spec.number (firstn 4 value)).
Proof.
  intros H. apply found_leading_digits in H. destruct H as [Hl Hd].
  apply PyFacts.int_number.
  - intros E. rewrite E in Hl. discriminate.
  - apply PyFacts.all_digits_forallb. assumption.
Qed.

Lemma call_eq value :
  call value =
  if found (search regex value)
  then if (Spec.number (firstn 4 value) <? 1000)%Z
       then Raise (ValidationError error_message) else Ok tt
  else Raise (ValidationError error_message).
Proof.
  unfold call, RegexValidator_call.
  destruct (found (search regex value)) eqn:E; cbn [bind]; [|reflexivity].
  rewrite (int_leading value E). reflexivity.
Qed.

(** C6. "1011 AB" is accepted, and "0999 AB" has the format and is rejected
    by the range check with "Enter a valid zip code.".  The text made of
    "1011 AB" and a line feed is not four digits, an optional space and two
    uppercase letters, and the validator accepts it: the [$] of the pattern
    matches before a final line feed, and [int(value[:4])] is 1011. *)
Theorem zip_line_feed :
  Spec.accepted (call (str "1011 AB"))
  /\ (Spec.NNNN_AA (str "0999 AB")
      /\ Spec.rejected "Enter a valid zip code." (call (str "0999 AB")))
  /\ (~ Spec.NNNN_AA (str "1011 AB" ++ [LF])
      /\ List.length (str "1011 AB" ++ [LF]) = 8
      /\ found (search regex (str "1011 AB" ++ [LF])) = true
      /\ Py.int (firstn 4 (str "1011 AB" ++ [LF])) = Ok 1011%Z
      /\ call (str "1011 AB" ++ [LF]) = Ok tt).
Proof.
  split; [reflexivity|]. split.
  - split; [| reflexivity].
    exists "0"%char, "9"%char, "9"%char, "9"%char, "A"%char, "B"%char.
    split; [right; reflexivity | repeat split].
  - split; [| repeat split; reflexivity].
    intros (a & b & c & d & e & f & [E | E] & _); discriminate E.
Qed.

(** C10. [int(value[:4])] is evaluated only after the value has matched
    [^\d{4} ?[A-Z]{2}$]; then the slice is four decimal digits and the
    conversion returns their number.  So a call either accepts or raises the
    validation error: it raises nothing else. *)
Theorem zip_int_never_fails value :
  (found (search regex value) = true ->
     (exists a b c d,
        firstn 4 value = [a; b; c; d]
        /\ is_digit a = true /\ is_digit b = true /\ is_digit c = true /\ is_digit d = true)
     /\ Py.int (firstn 4 value) = Ok (Spec.number (firstn 4 value)))
  /\ (found (search regex value) = false ->
      call value = Raise (ValidationError error_message))
  /\ (Spec.accepted (call value) \/ Spec.rejected error_message (call value)).
Proof.
  repeat split.
  - apply found_leading_digits in H. destruct H as [Hl Hd].
    destruct (firstn 4 value) as [|a [|b [|c [|d [|e t]]]]]; try discriminate Hl.
    simpl in Hd. rewrite !andb_true_iff in Hd. exists a, b, c, d. tauto.
  - apply int_leading. assumption.
  - intros H. rewrite call_eq, H. reflexivity.
  - unfold Spec.accepted, Spec.rejected. rewrite call_eq.
    destruct (found (search regex value)); [|right; reflexivity].
    destruct (Spec.number (firstn 4 value) <? 1000)%Z; [right | left]; reflexivity.
Qed.

Lemma zip_int_never_fails_witness :
  Py.int (firstn 4 (str "0999 AB")) = Ok 999%Z.
Proof.
  exact (proj2 (proj1 (zip_int_never_fails (str "0999 AB")) eq_refl)).
Defined.

(** The end anchor lets one final line feed through. *)
Example zip_trailing_LF : call (str "1011 AB" ++ [LF]) = Ok tt.
Proof. reflexivity. Qed.

End ZipFacts.

(** ** NLBSNFieldValidator and NLSoFiNumberFieldValidator *)

Module BSNFacts.
Import Re ReFacts ClassFacts NLBSNFieldValidator.

Lemma unsigned_int_raise s e : Py.unsigned_int s = Raise e -> e = ValueError.
Proof.
  unfold Py.unsigned_int. destruct s; [congruence|].
  destruct (forallb is_digit (a :: s)); congruence.
Qed.

Lemma int_raise s e : Py.int s = Raise e -> uncaught e.
Proof.
  unfold Py.int. intros H. left.
  destruct (Py.strip s) as [|[[] [] [] [] [] [] [] []] t];
    first [ exact (unsigned_int_raise _ _ H)
          | destruct (Py.unsigned_int t) eqn:E; cbn [bind] in H;
            [discriminate H | injection H as <-; exact (unsigned_int_raise _ _ E)] ].
Qed.

Lemma index_raise s i e : Py.index s i = Raise e -> uncaught e.
Proof.
  unfold Py.index. cbv zeta. intros H. right.
  destruct (_ <? 0)%Z; [congruence|].
  destruct (nth_error _ _); congruence.
Qed.

Lemma checksum_loop_raise value : forall range acc e,
  checksum_loop value range acc = Raise e -> uncaught e.
Proof.
  induction range as [|i range IH]; intros acc e; cbn [checksum_loop]; [discriminate|].
  destruct (Py.index value (9 - i)) as [c|e1] eqn:E1; cbn [bind].
  - destruct (Py.int [c]) as [d|e2] eqn:E2; cbn [bind].
    + apply IH.
    + intros H. injection H as <-. exact (int_raise _ _ E2).
  - intros H. injection H as <-. exact (index_raise _ _ _ E1).
Qed.

Lemma bsn_checksum_ok_raise value e : bsn_checksum_ok value = Raise e -> uncaught e.
Proof.
  unfold bsn_checksum_ok.
  destruct (checksum_loop value _ 0%Z) as [n|e1] eqn:E1; cbn [bind].
  - destruct (Py.index value (-1)) as [c|e2] eqn:E2; cbn [bind].
    + destruct (Py.int [c]) as [d|e3] eqn:E3; cbn [bind]; [discriminate|].
      intros H. injection H as <-. exact (int_raise _ _ E3).
    + intros H. injection H as <-. exact (index_raise _ _ _ E2).
  - intros H. injection H as <-. exact (checksum_loop_raise _ _ _ _ E1).
Qed.

(** The validation errors of a call carry the instance's message, and the
    message is all that the class attribute changes. *)
Lemma call_relabel m m' value : call (init m) value = relabel m (call (init m') value).
Proof.
  unfold call, init, RegexValidator_call. cbn [regex message error_message].
  destruct (found (search bsn_regex value)); cbn [bind relabel]; [|reflexivity].
  destruct (Py.int value) as [n|e] eqn:E; cbn [bind relabel].
  - destruct (n =? 0)%Z; cbn [bind relabel]; [reflexivity|].
    destruct (bsn_checksum_ok value) as [[|]|e] eqn:E'; cbn [bind relabel negb]; try reflexivity.
    destruct (bsn_checksum_ok_raise _ _ E') as [-> | ->]; reflexivity.
  - destruct (int_raise _ _ E) as [-> | ->]; reflexivity.
Qed.

Lemma call_validation_message m value m' :
  call (init m) value = Raise (ValidationError m') -> m' = m.
Proof.
  rewrite (call_relabel m m). destruct (call (init m) value) as [[]|[m0| |]]; cbn [relabel];
    intros H; congruence.
Qed.

End BSNFacts.

Module BSNChecksum.
Import Re ReFacts ClassFacts NLBSNFieldValidator.

Lemma found_bsn_regex value :
  found (search bsn_regex value) = true <->
  (List.length value = 9 /\ forallb is_digit value = true)
  \/ exists s, value = s ++ [LF] /\ List.length s = 9 /\ forallb is_digit s = true.
Proof.
  unfold bsn_regex. rewrite search_anchored, matches_Rep_Cls.
  split; (intros [H | (s & E & H)]; [left; assumption | right; exists s]).
  - apply matches_Rep_Cls in H. tauto.
  - rewrite matches_Rep_Cls. tauto.
Qed.

(** The indexing of the checksum on a value of nine characters. *)
Ltac index_at l i c := replace (Py.index l i) with (@Ok ascii c) by reflexivity.
Ltac index_nine c0 c1 c2 c3 c4 c5 c6 c7 c8 :=
  match goal with
  | |- context [Py.index ?l (-1)] =>
      index_at l (9 - 9)%Z c0; index_at l (9 - 8)%Z c1; index_at l (9 - 7)%Z c2;
      index_at l (9 - 6)%Z c3; index_at l (9 - 5)%Z c4; index_at l (9 - 4)%Z c5;
      index_at l (9 - 3)%Z c6; index_at l (9 - 2)%Z c7
  end.

(** On nine digits the loop and the subtraction compute the sum of the rule. *)
Lemma bsn_checksum_ok_nine value :
  List.length value = 9 -> forallb is_digit value = true ->
  bsn_checksum_ok value = Ok (Spec.bsn_sum value mod 11 =? 0)%Z.
Proof.
  intros Hl Hd.
  destruct value as [|c0 [|c1 [|c2 [|c3 [|c4 [|c5 [|c6 [|c7 [|c8 [|c9 t]]]]]]]]]];
    try discriminate Hl.
  cbn [forallb] in Hd. rewrite !andb_true_iff in Hd.
  destruct Hd as (H0 & H1 & H2 & H3 & H4 & H5 & H6 & H7 & H8 & _).
  unfold bsn_checksum_ok.
  change (Py.range 9 1 (-1)) with [9; 8; 7; 6; 5; 4; 3; 2]%Z.
  cbn [checksum_loop]. index_nine c0 c1 c2 c3 c4 c5 c6 c7 c8. cbn [bind].
  rewrite (PyFacts.int_digit c0 H0), (PyFacts.int_digit c1 H1), (PyFacts.int_digit c2 H2),
    (PyFacts.int_digit c3 H3), (PyFacts.int_digit c4 H4), (PyFacts.int_digit c5 H5),
    (PyFacts.int_digit c6 H6), (PyFacts.int_digit c7 H7).
  cbn [bind].
  replace (Py.index [c0; c1; c2; c3; c4; c5; c6; c7; c8] (-1)) with (@Ok ascii c8)
    by reflexivity.
  cbn [bind]. rewrite (PyFacts.int_digit c8 H8). cbn [bind]. do 3 f_equal.
  unfold Spec.bsn_sum, Spec.digit. cbn -[Py.digit_val Z.add Z.mul Z.sub]. lia.
Qed.

(** A call on nine digits, for an instance with message [m]. *)
Lemma call_nine m value :
  List.length value = 9 -> Spec.all_digits value ->
  call (init m) value =
  if (Spec.number value =? 0)%Z then Raise (ValidationError m)
  else if (Spec.bsn_sum value mod 11 =? 0)%Z then Ok tt
  else Raise (ValidationError m).
Proof.
  intros Hl Hd. pose proof Hd as Hf. apply PyFacts.all_digits_forallb in Hf.
  unfold call, init, RegexValidator_call. cbn [regex message error_message].
  rewrite (proj2 (found_bsn_regex value)) by (left; auto). cbn [bind].
  rewrite PyFacts.int_number; [| intros ->; discriminate Hl | assumption]. cbn [bind].
  destruct (Spec.number value =? 0)%Z; cbn [bind]; [reflexivity|].
  rewrite (bsn_checksum_ok_nine value Hl Hf). cbn [bind].
  destruct (Spec.bsn_sum value mod 11 =? 0)%Z; reflexivity.
Qed.

(** Nine digits followed by a line feed pass the pattern; [int] of the whole
    value drops the line feed, [int] of the last character does not. *)
Lemma call_nine_LF m s :
  List.length s = 9 -> Spec.all_digits s ->
  call (init m) (s ++ [LF]) =
  if (Spec.number s =? 0)%Z then Raise (ValidationError m) else Raise ValueError.
Proof.
  intros Hl Hd. pose proof Hd as Hf. apply PyFacts.all_digits_forallb in Hf.
  unfold call, init, RegexValidator_call. cbn [regex message error_message].
  rewrite (proj2 (found_bsn_regex (s ++ [LF]))) by (right; exists s; auto). cbn [bind].
  rewrite PyFacts.int_digits_LF; [| intros ->; discriminate Hl | assumption].
  rewrite PyFacts.int_number; [| intros ->; discriminate Hl | assumption]. cbn [bind].
  destruct (Spec.number s =? 0)%Z; cbn [bind]; [reflexivity|].
  destruct s as [|c0 [|c1 [|c2 [|c3 [|c4 [|c5 [|c6 [|c7 [|c8 [|c9 t]]]]]]]]]];
    try discriminate Hl.
  cbn [forallb] in Hf. rewrite !andb_true_iff in Hf.
  destruct Hf as (H0 & H1 & H2 & H3 & H4 & H5 & H6 & H7 & H8 & _).
  unfold bsn_checksum_ok.
  change (Py.range 9 1 (-1)) with [9; 8; 7; 6; 5; 4; 3; 2]%Z.
  cbn [checksum_loop]. index_nine c0 c1 c2 c3 c4 c5 c6 c7 c8. cbn [bind].
  rewrite (PyFacts.int_digit c0 H0), (PyFacts.int_digit c1 H1), (PyFacts.int_digit c2 H2),
    (PyFacts.int_digit c3 H3), (PyFacts.int_digit c4 H4), (PyFacts.int_digit c5 H5),
    (PyFacts.int_digit c6 H6), (PyFacts.int_digit c7 H7).
  reflexivity.
Qed.

End BSNChecksum.

Module BSNClaims.
Import Re NLBSNFieldValidator.

(** C3. On a text of exactly nine digits whose number is not zero, the BSN
    validator accepts exactly when
    [9*d0 + 8*d1 + 7*d2 + 6*d3 + 5*d4 + 4*d5 + 3*d6 + 2*d7 - d8]
    is divisible by 11, and otherwise rejects with "Enter a valid BSN.". *)
Theorem bsn_accepts_iff_checksum value :
  List.length value = 9 -> Spec.all_digits value -> Spec.number value <> 0%Z ->
  (Spec.accepted (call new value) <-> (11 | Spec.bsn_sum value)%Z)
  /\ (~ (11 | Spec.bsn_sum value)%Z -> Spec.rejected "Enter a valid BSN." (call new value)).
Proof.
  intros Hl Hd Hn. unfold Spec.accepted, Spec.rejected, new.
  rewrite (BSNChecksum.call_nine _ value Hl Hd).
  apply Z.eqb_neq in Hn. rewrite Hn.
  rewrite <- (Z.mod_divide (Spec.bsn_sum value) 11) by discriminate.
  destruct (Z.eqb_spec (Spec.bsn_sum value mod 11) 0) as [E | E].
  - split; [tauto | intros H; contradiction].
  - split; [split; [discriminate | intros H; contradiction] | reflexivity].
Qed.

Lemma bsn_accepts_iff_checksum_witness :
  Spec.accepted (call new (str "111222333")).
Proof.
  assert (Hd : Spec.all_digits (str "111222333"))
    by (apply PyFacts.all_digits_forallb; reflexivity).
  assert (Hn : Spec.number (str "111222333") <> 0%Z) by (vm_compute; discriminate).
  apply (proj1 (bsn_accepts_iff_checksum (str "111222333") eq_refl Hd Hn)).
  exists 6%Z. reflexivity.
Defined.

(** C4. The SoFi validator is the BSN validator with another message: it
    accepts the same values, rejects the same values, and every validation
    error it raises says "Enter a valid SoFi number."; its checksum is the
    BSN checksum. *)
Theorem sofi_same_as_bsn value :
  (Spec.accepted (NLSoFiNumberFieldValidator.call value) <-> Spec.accepted (call new value))
  /\ (Spec.rejected "Enter a valid SoFi number." (NLSoFiNumberFieldValidator.call value)
      <-> Spec.rejected "Enter a valid BSN." (call new value))
  /\ (forall m, NLSoFiNumberFieldValidator.call value = Raise (ValidationError m) ->
                m = "Enter a valid SoFi number."%string)
  /\ NLSoFiNumberFieldValidator.sofi_checksum_ok value = bsn_checksum_ok value.
Proof.
  unfold Spec.accepted, Spec.rejected, NLSoFiNumberFieldValidator.call,
    NLSoFiNumberFieldValidator.new, new.
  pose proof (BSNFacts.call_relabel NLSoFiNumberFieldValidator.cls_error_message
                cls_error_message value) as E.
  pose proof (BSNFacts.call_validation_message cls_error_message value) as Hb.
  pose proof (BSNFacts.call_validation_message
                NLSoFiNumberFieldValidator.cls_error_message value) as Hs.
  repeat split.
  - rewrite E. destruct (call (init cls_error_message) value) as [[]|[m| |]];
      cbn [relabel]; intros H; congruence.
  - intros H. rewrite E, H. reflexivity.
  - rewrite E. destruct (call (init cls_error_message) value) as [[]|[m| |]] eqn:C;
      cbn [relabel]; intros H; try discriminate H.
    rewrite (Hb m eq_refl). reflexivity.
  - intros H. rewrite E, H. reflexivity.
  - exact Hs.
Qed.

Lemma sofi_same_as_bsn_witness :
  Spec.rejected "Enter a valid SoFi number."
    (NLSoFiNumberFieldValidator.call (str "111222334")).
Proof.
  apply (proj2 (proj1 (proj2 (sofi_same_as_bsn (str "111222334"))))).
  reflexivity.
Defined.

(** A text that is not nine digits is rejected, unless it is nine digits
    and a line feed: then it is rejected when the number is zero and the
    call raises [ValueError] when it is not. *)
Lemma bsn_not_nine_digits value :
  ~ (List.length value = 9 /\ Spec.all_digits value) ->
  Spec.rejected "Enter a valid BSN." (call new value)
  \/ (call new value = Raise ValueError
      /\ exists s, value = s ++ [LF] /\ List.length s = 9 /\ Spec.all_digits s
                   /\ Spec.number s <> 0%Z).
Proof.
  intros Hnot. destruct (found (search bsn_regex value)) eqn:E.
  - apply BSNChecksum.found_bsn_regex in E. destruct E as [[Hl Hd] | (s & -> & Hl & Hd)].
    + elim Hnot. split; [assumption | apply PyFacts.all_digits_forallb; assumption].
    + apply PyFacts.all_digits_forallb in Hd. unfold new, Spec.rejected.
      rewrite (BSNChecksum.call_nine_LF _ s Hl Hd).
      destruct (Z.eqb_spec (Spec.number s) 0); [left; reflexivity | right].
      split; [reflexivity | exists s; auto].
  - left. unfold Spec.rejected, call, new, init, RegexValidator_call.
    cbn [regex message error_message]. rewrite E. reflexivity.
Qed.

(** C8. "000000000" is rejected with "Enter a valid BSN." although its
    checksum, 0, is divisible by 11.  The text made of "111222333" and a line
    feed is not nine digits, and the call on it raises [ValueError]: [$] lets
    the line feed through and [int(value[-1])] fails on it. *)
Theorem bsn_zero_and_line_feed :
  (Spec.rejected "Enter a valid BSN." (call new (str "000000000"))
   /\ (11 | Spec.bsn_sum (str "000000000"))%Z)
  /\ (List.length (str "111222333" ++ [LF]) = 10
      /\ found (search bsn_regex (str "111222333" ++ [LF])) = true
      /\ Py.int (str "111222333" ++ [LF]) = Ok 111222333%Z
      /\ Py.index (str "111222333" ++ [LF]) (-1) = Ok LF
      /\ Py.int [LF] = Raise ValueError
      /\ call new (str "111222333" ++ [LF]) = Raise ValueError).
Proof.
  split; [split; [reflexivity | exists 0%Z; reflexivity] |].
  repeat split; reflexivity.
Qed.

End BSNClaims.

(** ** NLPhoneNumberFieldValidator *)

Module PhoneFacts.
Import Re ReFacts ClassFacts NLPhoneNumberFieldValidator.

Lemma stripped_class_spec c : stripped_class c = Spec.phone_stripped c.
Proof. destruct c as [[] [] [] [] [] [] [] []]; reflexivity. Qed.

Lemma sub_is_remove_chars value :
  Py.sub_class_empty stripped_class value = Spec.remove_chars Spec.phone_stripped value.
Proof.
  unfold Py.sub_class_empty.
  induction value as [|c value IH]; simpl; [reflexivity|].
  rewrite stripped_class_spec, IH. destruct (Spec.phone_stripped c); reflexivity.
Qed.

Lemma remove_chars_In drop c s : In c (Spec.remove_chars drop s) -> drop c = false.
Proof.
  induction s as [|a s IH]; simpl; [contradiction|].
  destruct (drop a) eqn:E; [exact IH|].
  intros [<- | H]; [assumption | auto].
Qed.

(** The stripped value holds no line feed. *)
Lemma stripped_no_LF value : ~ In LF (Spec.remove_chars Spec.phone_stripped value).
Proof. intros H. apply remove_chars_In in H. discriminate H. Qed.

(** So on (a part of) the stripped value [^\d+$] finds exactly the non-empty
    runs of digits. *)
Lemma numeric_found s :
  ~ In LF s ->
  (found (search numeric_re s) = true <-> s <> [] /\ Spec.all_digits s).
Proof.
  intros HLF. unfold numeric_re. rewrite search_plus_anchored, PyFacts.all_digits_forallb.
  split; [|tauto].
  intros [H | (s' & -> & _)]; [assumption|].
  elim HLF. apply in_or_app. right. left. reflexivity.
Qed.

End PhoneFacts.

Module PhoneClaims.
Import Re NLPhoneNumberFieldValidator PhoneFacts.

(** C5. The phone number validator removes every '-', white space character,
    '(' and ')' from the value; it accepts exactly when what is left is ten
    digits, or is "+31" followed by nine digits, and otherwise rejects with
    "Enter a valid phone number.".  "0612345678" and "+31612345678" are
    accepted, "061234567" is rejected. *)
Theorem phone_accepts_iff value :
  (Spec.accepted (call value) <->
     Spec.phone_ok (Spec.remove_chars Spec.phone_stripped value))
  /\ (~ Spec.accepted (call value) ->
      Spec.rejected "Enter a valid phone number." (call value))
  /\ Spec.accepted (call (str "0612345678"))
  /\ Spec.accepted (call (str "+31612345678"))
  /\ Spec.rejected "Enter a valid phone number." (call (str "061234567")).
Proof.
  split; [| split; [| repeat split]].
  - unfold Spec.accepted, call. cbv zeta. rewrite sub_is_remove_chars.
    pose proof (stripped_no_LF value) as HLF.
    set (s := Spec.remove_chars Spec.phone_stripped value) in *.
    assert (HLF3 : ~ In LF (skipn 3 s)).
    { intros H. apply HLF. rewrite <- (firstn_skipn 3 s). apply in_or_app. auto. }
    destruct ((List.length s =? 10) && found (search numeric_re s)) eqn:A.
    + split; [intros _ | reflexivity].
      apply andb_true_iff in A. destruct A as [Hl Hf].
      apply Nat.eqb_eq in Hl. apply (numeric_found s HLF) in Hf. left. tauto.
    + destruct (text_eqb (firstn 3 s) (str "+31") && (List.length s =? 12)
                && found (search numeric_re (skipn 3 s))) eqn:B.
      * split; [intros _ | reflexivity].
        rewrite !andb_true_iff in B. destruct B as [[Hp Hl] Hf].
        apply PyFacts.text_eqb_eq in Hp. apply Nat.eqb_eq in Hl.
        apply (numeric_found _ HLF3) in Hf.
        right. exists (skipn 3 s). rewrite <- Hp, firstn_skipn, length_skipn, Hl.
        split; [reflexivity | split; [reflexivity | tauto]].
      * split; [discriminate|]. intros [[Hl Hd] | (r & E & Hl & Hd)].
        -- rewrite (proj2 (Nat.eqb_eq _ _) Hl) in A.
           rewrite (proj2 (numeric_found s HLF)) in A; [discriminate|].
           split; [intros E; rewrite E in Hl; discriminate | assumption].
        -- assert (Hs : skipn 3 s = r) by (rewrite E; reflexivity).
           rewrite Hs in B, HLF3.
           rewrite (proj2 (numeric_found r HLF3)) in B
             by (split; [intros E'; rewrite E' in Hl; discriminate | assumption]).
           rewrite E in B. cbn [str list_ascii_of_string app firstn List.length] in B.
           rewrite Hl in B. discriminate B.
  - unfold Spec.accepted, Spec.rejected, call. cbv zeta.
    destruct (_ && _); [intros H; now elim H|].
    destruct (_ && _); [intros H; now elim H | reflexivity].
Qed.

Lemma phone_accepts_iff_witness :
  Spec.accepted (call (str "(020) 624-1111")).
Proof.
  apply (proj2 (proj1 (phone_accepts_iff (str "(020) 624-1111")))).
  left. split; [reflexivity | apply PyFacts.all_digits_forallb; reflexivity].
Defined.

End PhoneClaims.

(** ** NLBankAccountNumberFieldValidator *)

Module BankFacts.
Import Re ReFacts ClassFacts NLBankAccountNumberFieldValidator.

Lemma found_regex value :
  found (search regex value) = true <->
  (value <> [] /\ forallb is_digit value = true)
  \/ exists s, value = s ++ [LF] /\ s <> [] /\ forallb is_digit s = true.
Proof. unfold regex. apply search_plus_anchored. Qed.

Lemma found_regex_digits value :
  value <> [] -> Spec.all_digits value -> found (search regex value) = true.
Proof.
  intros Hne Hd. apply found_regex. left.
  split; [assumption | apply PyFacts.all_digits_forallb; assumption].
Qed.

(** A match of [[1-9]+] starts at a position exactly when the character
    there is in the class. *)
Lemma match_here_nlz a s :
  match_here no_leading_zeros_regex (body no_leading_zeros_regex) (a :: s)
  = in_range "1" "9" a.
Proof.
  destruct (in_range "1" "9" a) eqn:Ha.
  - apply match_here_spec. exists [a], s. repeat split.
    apply matches_Plus_Cls. simpl. rewrite Ha. split; [discriminate | reflexivity].
  - destruct (match_here _ _ _) eqn:E; [|reflexivity].
    apply match_here_spec in E. destruct E as (s1 & s2 & E & H & _).
    apply matches_Plus_Cls in H. destruct H as [Hne H].
    destruct s1 as [|c s1]; [contradiction|]. injection E as <- _.
    simpl in H. rewrite Ha in H. discriminate H.
Qed.

Lemma scan_shift p s : forall i, scan p s (S i) = option_map S (scan p s i).
Proof.
  induction s as [|a s IH]; intros i; simpl.
  - destruct (nullable (body p) && end_ok p [] || false); reflexivity.
  - destruct (_ || _); [reflexivity | apply IH].
Qed.

Lemma search_nlz_cons a s :
  search no_leading_zeros_regex (a :: s) =
  if in_range "1" "9" a then Some 0
  else option_map S (search no_leading_zeros_regex s).
Proof.
  unfold search. cbn [bol no_leading_zeros_regex]. cbn [scan].
  fold no_leading_zeros_regex. rewrite match_here_nlz.
  destruct (in_range "1" "9" a); [reflexivity | apply scan_shift].
Qed.

Lemma digit_zero_or_nonzero c :
  is_digit c = true -> ascii_eqb c "0" = negb (in_range "1" "9" c).
Proof.
  intros H. apply PyFacts.is_digit_cases in H. simpl in H.
  repeat (destruct H as [<- | H]; [reflexivity|]). contradiction.
Qed.

(** On digits, cutting the value at the start of the match strips the
    leading zeros; there is no match when every digit is a zero. *)
Lemma search_nlz_strips value :
  Spec.all_digits value ->
  match search no_leading_zeros_regex value with
  | Some start => skipn start value = Spec.strip_leading_zeros value
                  /\ Spec.strip_leading_zeros value <> []
  | None => Spec.strip_leading_zeros value = []
  end.
Proof.
  induction value as [|c value IH]; intros Hd; [reflexivity|].
  inversion Hd as [|? ? Hc Hd']; subst.
  rewrite search_nlz_cons. cbn [Spec.strip_leading_zeros].
  rewrite (digit_zero_or_nonzero c Hc).
  destruct (in_range "1" "9" c); cbn [negb].
  - split; [reflexivity | discriminate].
  - specialize (IH Hd'). destruct (search no_leading_zeros_regex value); exact IH.
Qed.

Lemma strip_leading_zeros_digits s :
  Spec.all_digits s -> Spec.all_digits (Spec.strip_leading_zeros s).
Proof.
  induction 1 as [|c s Hc Hs IH]; simpl; [constructor|].
  destruct (ascii_eqb c "0"); [assumption | constructor; assumption].
Qed.

(** On ten digits the eleven test sum of the code is the weighted sum of the
    rule: weight 1 for the leftmost digit up to weight 10 for the rightmost. *)
Lemma eleven_test_sum_ten value :
  List.length value = 10 -> Spec.all_digits value ->
  eleven_test_sum value = Ok (Spec.eleven_sum value).
Proof.
  intros Hl Hd. apply PyFacts.all_digits_forallb in Hd.
  destruct value as [|c0 [|c1 [|c2 [|c3 [|c4 [|c5 [|c6 [|c7 [|c8 [|c9 [|c t]]]]]]]]]]];
    try discriminate Hl.
  cbn [forallb] in Hd. rewrite !andb_true_iff in Hd.
  destruct Hd as (H0 & H1 & H2 & H3 & H4 & H5 & H6 & H7 & H8 & H9 & _).
  unfold eleven_test_sum.
  change (Py.range 1 11 1) with [1; 2; 3; 4; 5; 6; 7; 8; 9; 10]%Z.
  cbn [combine Py.comprehension fst snd].
  rewrite (PyFacts.int_digit c0 H0), (PyFacts.int_digit c1 H1), (PyFacts.int_digit c2 H2),
    (PyFacts.int_digit c3 H3), (PyFacts.int_digit c4 H4), (PyFacts.int_digit c5 H5),
    (PyFacts.int_digit c6 H6), (PyFacts.int_digit c7 H7), (PyFacts.int_digit c8 H8),
    (PyFacts.int_digit c9 H9).
  cbn [bind]. f_equal.
  unfold Py.sum, Spec.eleven_sum, Spec.digit.
  cbn -[Py.digit_val Z.add Z.mul]. lia.
Qed.

End BankFacts.

Module BankClaims.
Import Re NLBankAccountNumberFieldValidator BankFacts.

(** The check of the pattern comes first, the check of the raw length second. *)
Lemma call_long value :
  10 < List.length value ->
  call value =
  if found (search regex value) then Raise (ValidationError wrong_length)
  else Raise (ValidationError invalid).
Proof.
  intros Hl. unfold call, RegexValidator_call.
  destruct (found (search regex value)); cbn [bind]; [|reflexivity].
  rewrite (proj2 (Nat.ltb_lt _ _) Hl). reflexivity.
Qed.

(** C1, as the code has it.  A value of more than 10 characters that is
    all digits is rejected with "Bank account numbers have 1 - 7, 9 or 10
    digits.", before the zeros are stripped.  The check of the pattern comes
    first: a value that is empty or holds a character other than a digit
    (one final line feed after digits aside) is rejected with "Enter a valid
    bank account number.", whatever its length. *)
Theorem bank_long_value_rejected value :
  (Spec.all_digits value -> 10 < List.length value ->
     Spec.rejected "Bank account numbers have 1 - 7, 9 or 10 digits." (call value))
  /\ (~ (value <> [] /\ Spec.all_digits value) ->
      ~ (exists s, value = s ++ [LF] /\ s <> [] /\ Spec.all_digits s) ->
      Spec.rejected "Enter a valid bank account number." (call value)).
Proof.
  unfold Spec.rejected. split.
  - intros Hd Hl. rewrite (call_long value Hl).
    rewrite found_regex_digits; [reflexivity | | assumption].
    intros ->. simpl in Hl. lia.
  - intros H1 H2.
    assert (Hf : found (search regex value) = false).
    { destruct (found (search regex value)) eqn:E; [exfalso | reflexivity].
      apply found_regex in E. destruct E as [[Hne Hd] | (s & E & Hne & Hd)].
      - apply H1. split; [assumption | apply PyFacts.all_digits_forallb; assumption].
      - apply H2. exists s.
        split; [assumption | split; [assumption | apply PyFacts.all_digits_forallb; assumption]]. }
    unfold call, RegexValidator_call. rewrite Hf. reflexivity.
Qed.

Lemma bank_long_value_rejected_witness :
  Spec.rejected "Bank account numbers have 1 - 7, 9 or 10 digits."
    (call (str "12345678901"))
  /\ Spec.rejected "Enter a valid bank account number." (call (str "1a")).
Proof.
  split.
  - assert (Hd : Spec.all_digits (str "12345678901"))
      by (apply PyFacts.all_digits_forallb; reflexivity).
    assert (Hl : 10 < List.length (str "12345678901")) by (simpl; lia).
    exact (proj1 (bank_long_value_rejected (str "12345678901")) Hd Hl).
  - apply (proj2 (bank_long_value_rejected (str "1a"))).
    + intros [_ Hd]. apply PyFacts.all_digits_forallb in Hd. discriminate Hd.
    + intros (s & E & _). destruct s as [|x [|y [|z s]]]; discriminate E.
Defined.

(** C1 fails as it is stated: "abcdefghijk" has 11 characters and is
    rejected with the message for an invalid number, not with the length
    message (in the spelling of the code or of the specification). *)
Lemma bank_long_value_counterexample :
  10 < List.length (str "abcdefghijk")
  /\ Spec.rejected "Enter a valid bank account number." (call (str "abcdefghijk"))
  /\ ~ Spec.rejected wrong_length (call (str "abcdefghijk"))
  /\ ~ Spec.rejected Spec.length_message (call (str "abcdefghijk")).
Proof.
  split; [simpl; lia|]. split; [reflexivity|]. split; intros H; discriminate H.
Qed.

Lemma call_checksum value :
  Spec.all_digits value -> List.length value <= 10 ->
  List.length (Spec.strip_leading_zeros value) = 9
  \/ List.length (Spec.strip_leading_zeros value) = 10 ->
  call value =
  if (Spec.eleven_sum (Spec.pad10 (Spec.strip_leading_zeros value)) mod 11 =? 0)%Z
  then Ok tt else Raise (ValidationError invalid).
Proof.
  intros Hd Hl Hs.
  assert (Hne : value <> []) by (intros ->; simpl in Hs; lia).
  unfold call, RegexValidator_call.
  rewrite (found_regex_digits value Hne Hd). cbn [bind].
  rewrite (proj2 (Nat.ltb_ge _ _) Hl).
  pose proof (search_nlz_strips value Hd) as Hm.
  pose proof (strip_leading_zeros_digits value Hd) as Hds.
  destruct (search no_leading_zeros_regex value) as [start|].
  - destruct Hm as [E _]. cbv zeta. rewrite E.
    set (s := Spec.strip_leading_zeros value) in *.
    unfold Spec.pad10.
    destruct Hs as [H9 | H10].
    + rewrite H9. cbn [Nat.eqb negb andb orb].
      rewrite eleven_test_sum_ten; [| simpl; lia | constructor; [reflexivity | assumption]].
      cbn [bind]. destruct (_ =? 0)%Z; reflexivity.
    + rewrite H10. cbn [Nat.eqb negb andb orb].
      rewrite eleven_test_sum_ten; [| assumption | assumption].
      cbn [bind]. destruct (_ =? 0)%Z; reflexivity.
  - rewrite Hm in Hs. simpl in Hs. lia.
Qed.

(** C2, as the code has it.  For a value of at most 10 characters, all
    digits, that is 10 digits long once its leading zeros are stripped, or 9
    digits long and then left-padded with one "0": the validator accepts
    exactly when [1*d0 + 2*d1 + ... + 10*d9] is divisible by 11, and otherwise
    rejects with "Enter a valid bank account number.". *)
Theorem bank_eleven_test value :
  Spec.all_digits value -> List.length value <= 10 ->
  List.length (Spec.strip_leading_zeros value) = 9
  \/ List.length (Spec.strip_leading_zeros value) = 10 ->
  (Spec.accepted (call value) <->
     (11 | Spec.eleven_sum (Spec.pad10 (Spec.strip_leading_zeros value)))%Z)
  /\ (~ (11 | Spec.eleven_sum (Spec.pad10 (Spec.strip_leading_zeros value)))%Z ->
      Spec.rejected "Enter a valid bank account number." (call value)).
Proof.
  intros Hd Hl Hs. unfold Spec.accepted, Spec.rejected.
  rewrite (call_checksum value Hd Hl Hs).
  rewrite <- (Z.mod_divide _ 11) by discriminate.
  destruct (Z.eqb_spec (Spec.eleven_sum (Spec.pad10 (Spec.strip_leading_zeros value)) mod 11) 0)
    as [E | E].
  - split; [tauto | intros H; contradiction].
  - split; [split; [discriminate | intros H; contradiction] | reflexivity].
Qed.

Lemma bank_eleven_test_witness :
  Spec.accepted (call (str "0123456789")).
Proof.
  assert (Hd : Spec.all_digits (str "0123456789"))
    by (apply PyFacts.all_digits_forallb; reflexivity).
  assert (Hl : List.length (str "0123456789") <= 10) by (simpl; lia).
  apply (proj1 (bank_eleven_test (str "0123456789") Hd Hl (or_introl eq_refl))).
  exists 30%Z. reflexivity.
Defined.

(** C2 fails as it is stated: "01000000001" is all digits, is 10 digits long
    once its leading zero is stripped, and its weighted sum, 11, is divisible
    by 11; but the raw value has 11 characters and is rejected for its
    length. *)
Lemma bank_eleven_test_counterexample :
  Spec.all_digits (str "01000000001")
  /\ List.length (Spec.strip_leading_zeros (str "01000000001")) = 10
  /\ (11 | Spec.eleven_sum (Spec.strip_leading_zeros (str "01000000001")))%Z
  /\ Spec.rejected wrong_length (call (str "01000000001"))
  /\ ~ Spec.accepted (call (str "01000000001")).
Proof.
  split; [apply PyFacts.all_digits_forallb; reflexivity|].
  split; [reflexivity|].
  split; [exists 1%Z; reflexivity|].
  split; [reflexivity | intros H; discriminate H].
Qed.

(** One more leading zero does not change the outcome, as long as the raw
    value stays within 10 characters. *)
Lemma call_leading_zero s :
  found (search regex s) = true -> List.length s < 10 ->
  call ("0"%char :: s) = call s.
Proof.
  intros Hf Hl.
  assert (Hf0 : found (search regex ("0"%char :: s)) = true).
  { apply found_regex. apply found_regex in Hf.
    destruct Hf as [[Hne Hd] | (s' & -> & Hne & Hd)].
    - left. split; [discriminate | simpl; rewrite Hd; reflexivity].
    - right. exists ("0"%char :: s').
      split; [reflexivity | split; [discriminate | simpl; rewrite Hd; reflexivity]]. }
  unfold call, RegexValidator_call. rewrite Hf, Hf0. cbn [bind].
  rewrite (proj2 (Nat.ltb_ge 10 (List.length s))) by lia.
  rewrite (proj2 (Nat.ltb_ge 10 (List.length ("0"%char :: s)))) by (simpl; lia).
  rewrite search_nlz_cons. change (in_range "1" "9" "0") with false. cbv iota.
  destruct (search no_leading_zeros_regex s) as [start|]; reflexivity.
Qed.

(** C7. For a text of exactly nine digits, the validator gives the same
    outcome (accepted, or rejected with the same message) for the text and
    for the text with one "0" in front; so for "123456789" and
    "0123456789". *)
Theorem bank_left_pad_equivalence s :
  List.length s = 9 -> Spec.all_digits s ->
  call ("0"%char :: s) = call s
  /\ call (str "0123456789") = call (str "123456789").
Proof.
  intros Hl Hd. split; [|reflexivity].
  apply call_leading_zero; [|lia].
  apply found_regex_digits; [intros ->; discriminate Hl | assumption].
Qed.

Lemma bank_left_pad_equivalence_witness :
  call (str "0417164300") = call (str "417164300").
Proof.
  assert (Hd : Spec.all_digits (str "417164300"))
    by (apply PyFacts.all_digits_forallb; reflexivity).
  exact (proj1 (bank_left_pad_equivalence (str "417164300") eq_refl Hd)).
Defined.

End BankClaims.

(** ** MTPostalCodeField *)

Module MTFacts.
Import Re ReFacts ClassFacts MTPostalCodeField.

Lemma matches_body_AAA_0000 s : matches (body regex) s <-> Spec.AAA_0000 s.
Proof.
  unfold regex, Spec.AAA_0000, Spec.is_upper. cbn [body]. split.
  - intros H. apply matches_Rep_Cls_then in H. destruct H as (Hl & Hu & H).
    apply matches_Chr_then in H. destruct H as (s' & E & H).
    apply matches_Rep_Cls in H. destruct H as [Hl' Hd].
    destruct s as [|a [|b [|c t]]]; simpl in Hl; try lia.
    cbn [skipn] in E. subst t.
    destruct s' as [|d [|e [|f [|g [|h t]]]]]; try discriminate Hl'.
    cbn [firstn forallb] in Hu, Hd.
    repeat rewrite andb_true_iff in Hu. repeat rewrite andb_true_iff in Hd.
    exists a, b, c, d, e, f, g. split; [reflexivity | tauto].
  - intros (a & b & c & d & e & f & g & -> & Ha & Hb & Hc & Hd & He & Hf & Hg).
    apply matches_Rep_Cls_then. split; [simpl; lia|].
    split; [cbn [firstn forallb]; rewrite Ha, Hb, Hc; reflexivity|].
    apply matches_Chr_then. exists [d; e; f; g]. split; [reflexivity|].
    apply matches_Rep_Cls. split; [reflexivity|].
    cbn [forallb]. rewrite Hd, He, Hf, Hg. reflexivity.
Qed.

Lemma validate_eq value :
  validate value =
  if found (search regex value) then Ok tt else Raise (ValidationError invalid).
Proof.
  unfold validate, RegexValidator_call. destruct (found (search regex value)); reflexivity.
Qed.

(** What the field accepts: the format AAA 0000, and the format followed by
    one line feed; everything else it rejects with its message. *)
Lemma validate_accepts_iff value :
  (Spec.accepted (validate value) <->
     Spec.AAA_0000 value \/ exists s, value = s ++ [LF] /\ Spec.AAA_0000 s)
  /\ (~ Spec.accepted (validate value) ->
      Spec.rejected "Enter a valid postal code in format AAA 0000." (validate value)).
Proof.
  unfold Spec.accepted, Spec.rejected. rewrite validate_eq.
  pose proof (search_anchored (body regex) value) as H.
  change (Pattern true (body regex) true) with regex in H.
  destruct (found (search regex value)).
  - split; [| intros E; now elim E].
    split; [intros _ | reflexivity].
    destruct (proj1 H eq_refl) as [Hm | (s & E & Hm)]; apply matches_body_AAA_0000 in Hm.
    + left. assumption.
    + right. exists s. auto.
  - split; [| reflexivity].
    split; [discriminate|].
    intros Hs. assert (F : false = true); [| discriminate F].
    apply H.
    destruct Hs as [Hm | (s & E & Hm)]; apply matches_body_AAA_0000 in Hm;
      [left | right; exists s]; auto.
Qed.

(** C9. "ABC 1234" is accepted and "AB1 1234" is rejected with "Enter a
    valid postal code in format AAA 0000.".  The text made of "ABC 1234" and
    a line feed is not three uppercase letters, one space and four digits, and
    the field accepts it: the [$] of its pattern matches before a final line
    feed. *)
Theorem mt_postal_code_line_feed :
  Spec.accepted (validate (str "ABC 1234"))
  /\ Spec.rejected "Enter a valid postal code in format AAA 0000." (validate (str "AB1 1234"))
  /\ (~ Spec.AAA_0000 (str "ABC 1234" ++ [LF])
      /\ List.length (str "ABC 1234" ++ [LF]) = 9
      /\ found (search regex (str "ABC 1234" ++ [LF])) = true
      /\ validate (str "ABC 1234" ++ [LF]) = Ok tt).
Proof.
  split; [reflexivity|]. split; [reflexivity|].
  split; [| repeat split; reflexivity].
  intros (a & b & c & d & e & f & g & E & _). discriminate E.
Qed.

End MTFacts.

(** ** More on NLZipCodeFieldValidator *)

Module ZipMore.
Import Re ReFacts ClassFacts NLZipCodeFieldValidator.

Lemma digit_val_bounds c : is_digit c = true -> (0 <= Py.digit_val c <= 9)%Z.
Proof. intros H. apply PyFacts.is_digit_spec in H. unfold Py.digit_val. lia. Qed.

Lemma digit_val_zero c : Py.digit_val c = 0%Z <-> c = "0"%char.
Proof.
  unfold Py.digit_val. split.
  - intros H. apply PyFacts.code_inj. change (code "0") with 48%N. lia.
  - intros ->. reflexivity.
Qed.

Lemma found_leading value :
  found (search regex value) = true ->
  exists a b c d t,
    value = a :: b :: c :: d :: t
    /\ is_digit a = true /\ is_digit b = true /\ is_digit c = true /\ is_digit d = true.
Proof.
  intros H. apply ZipFacts.found_leading_digits in H. destruct H as [Hl Hd].
  destruct value as [|a [|b [|c [|d t]]]]; try discriminate Hl.
  cbn [firstn forallb] in Hd. repeat rewrite andb_true_iff in Hd.
  exists a, b, c, d, t. tauto.
Qed.

(** The range check only looks at the first digit. *)
Lemma leading_number a b c d t :
  is_digit a = true -> is_digit b = true -> is_digit c = true -> is_digit d = true ->
  (Spec.number (firstn 4 (a :: b :: c :: d :: t)) <? 1000)%Z = ascii_eqb a "0".
Proof.
  intros Ha Hb Hc Hd.
  apply digit_val_bounds in Ha, Hb, Hc, Hd.
  assert (E : Spec.number (firstn 4 (a :: b :: c :: d :: t))
              = (1000 * Py.digit_val a + 100 * Py.digit_val b
                 + 10 * Py.digit_val c + Py.digit_val d)%Z).
  { unfold Spec.number. cbn [firstn fold_left]. lia. }
  rewrite E.
  destruct (ascii_eqb a "0") eqn:E0.
  - apply PyFacts.ascii_eqb_eq in E0. apply digit_val_zero in E0. apply Z.ltb_lt. lia.
  - apply Z.ltb_ge.
    assert (Py.digit_val a <> 0%Z).
    { intros H. apply digit_val_zero in H. subst a. discriminate E0. }
    lia.
Qed.

(** X1. The zip code validator accepts exactly the values made of four
    digits, possibly one space and two uppercase letters (or such a value
    followed by one line feed) whose first digit is not 0; the range check
    [int(value[:4]) < 1000] comes down to the first digit. *)
Theorem zip_accepts_shape value :
  Spec.accepted (call value) <->
  (Spec.NNNN_AA value \/ exists s, value = s ++ [LF] /\ Spec.NNNN_AA s)
  /\ hd_error value <> Some "0"%char.
Proof.
  unfold Spec.accepted. rewrite ZipFacts.call_eq, <- ZipFacts.found_regex_shape.
  destruct (found (search regex value)) eqn:F.
  - destruct (found_leading value F) as (a & b & c & d & t & -> & Ha & Hb & Hc & Hd).
    rewrite (leading_number a b c d t Ha Hb Hc Hd). cbn [hd_error].
    destruct (ascii_eqb a "0") eqn:E0.
    + apply PyFacts.ascii_eqb_eq in E0. subst a.
      split; [discriminate | intros [_ H]; now elim H].
    + split; [intros _ | reflexivity].
      split; [reflexivity|]. intros H. injection H as ->. discriminate E0.
  - split; [discriminate | intros [H _]; discriminate H].
Qed.

Lemma zip_accepts_shape_witness :
  hd_error (str "2511 CV") <> Some "0"%char.
Proof.
  exact (proj2 (proj1 (zip_accepts_shape (str "2511 CV")) eq_refl)).
Defined.

Lemma shape_with_space a1 a2 a3 a4 e f :
  (Spec.NNNN_AA [a1; a2; a3; a4; " "%char; e; f]
   \/ exists s, [a1; a2; a3; a4; " "%char; e; f] = s ++ [LF] /\ Spec.NNNN_AA s)
  <-> is_digit a1 = true /\ is_digit a2 = true /\ is_digit a3 = true /\ is_digit a4 = true
      /\ Spec.is_upper e = true /\ Spec.is_upper f = true.
Proof.
  split.
  - intros [H | (s & E & H)];
      destruct H as (x1 & x2 & x3 & x4 & x5 & x6 & [Hs | Hs] & H1 & H2 & H3 & H4 & H5 & H6);
      subst; try discriminate.
    + injection Hs; intros; subst. tauto.
    + injection E; intros; subst. discriminate H5.
  - intros H. left. exists a1, a2, a3, a4, e, f. split; [right; reflexivity | tauto].
Qed.

Lemma shape_without_space a1 a2 a3 a4 e f :
  (Spec.NNNN_AA [a1; a2; a3; a4; e; f]
   \/ exists s, [a1; a2; a3; a4; e; f] = s ++ [LF] /\ Spec.NNNN_AA s)
  <-> is_digit a1 = true /\ is_digit a2 = true /\ is_digit a3 = true /\ is_digit a4 = true
      /\ Spec.is_upper e = true /\ Spec.is_upper f = true.
Proof.
  split.
  - intros [H | (s & E & H)];
      destruct H as (x1 & x2 & x3 & x4 & x5 & x6 & [Hs | Hs] & H1 & H2 & H3 & H4 & H5 & H6);
      subst; try discriminate.
    injection Hs; intros; subst. tauto.
  - intros H. left. exists a1, a2, a3, a4, e, f. split; [left; reflexivity | tauto].
Qed.

(** X2. The space between the digits and the letters does not matter: a text
    of four characters followed by two characters gets the same outcome with
    a space between the two parts as without. *)
Theorem zip_space_optional a b :
  List.length a = 4 -> List.length b = 2 ->
  call (a ++ " "%char :: b) = call (a ++ b).
Proof.
  intros Ha Hb.
  destruct a as [|a1 [|a2 [|a3 [|a4 [|a5 a]]]]]; try discriminate Ha.
  destruct b as [|e [|f [|g b]]]; try discriminate Hb.
  cbn [app]. rewrite !ZipFacts.call_eq. cbn [firstn].
  replace (found (search regex [a1; a2; a3; a4; " "%char; e; f]))
    with (found (search regex [a1; a2; a3; a4; e; f])); [reflexivity|].
  pose proof (ZipFacts.found_regex_shape [a1; a2; a3; a4; " "%char; e; f]) as H7.
  pose proof (ZipFacts.found_regex_shape [a1; a2; a3; a4; e; f]) as H6.
  rewrite shape_with_space in H7. rewrite shape_without_space in H6.
  destruct (found (search regex [a1; a2; a3; a4; e; f]));
    destruct (found (search regex [a1; a2; a3; a4; " "%char; e; f])); try reflexivity.
  - symmetry. apply H7, H6. reflexivity.
  - apply H6, H7. reflexivity.
Qed.

Lemma zip_space_optional_witness :
  call (str "2511 CV") = call (str "2511CV").
Proof.
  exact (zip_space_optional (str "2511") (str "CV") eq_refl eq_refl).
Defined.

End ZipMore.

(** ** More on NLBSNFieldValidator *)

Module BSNMore.
Import Re NLBSNFieldValidator.

Lemma all_digits_dec value :
  {List.length value = 9 /\ Spec.all_digits value}
  + {~ (List.length value = 9 /\ Spec.all_digits value)}.
Proof.
  destruct (Nat.eq_dec (List.length value) 9) as [Hl | Hl]; [| right; tauto].
  destruct (forallb is_digit value) eqn:E.
  - left. split; [assumption | apply PyFacts.all_digits_forallb; assumption].
  - right. intros [_ H]. apply PyFacts.all_digits_forallb in H. congruence.
Qed.

(** X3. The outcomes of the BSN validator.  A call raises [ValueError]
    exactly on nine digits, not all zero, followed by one line feed; it never
    raises [IndexError]; and it accepts nothing but texts of nine digits.  So
    every other text is rejected with the validation error. *)
Theorem bsn_call_outcomes value :
  (call new value = Raise ValueError <->
     exists s, value = s ++ [LF] /\ List.length s = 9 /\ Spec.all_digits s
               /\ Spec.number s <> 0%Z)
  /\ call new value <> Raise IndexError
  /\ (Spec.accepted (call new value) -> List.length value = 9 /\ Spec.all_digits value)
  /\ (Spec.accepted (call new value) \/ Spec.rejected "Enter a valid BSN." (call new value)
      \/ call new value = Raise ValueError).
Proof.
  destruct (all_digits_dec value) as [[Hl Hd] | Hnot].
  - assert (Hc := BSNChecksum.call_nine cls_error_message value Hl Hd).
    fold new in Hc. unfold Spec.accepted, Spec.rejected. rewrite Hc.
    split; [| split; [| split]].
    + split.
      * destruct (_ =? 0)%Z; [discriminate|]. destruct (_ =? 0)%Z; discriminate.
      * intros (s & -> & Hs & _). rewrite length_app in Hl. simpl in Hl. lia.
    + destruct (_ =? 0)%Z; [discriminate|]. destruct (_ =? 0)%Z; discriminate.
    + auto.
    + destruct (_ =? 0)%Z; [right; left; reflexivity|].
      destruct (_ =? 0)%Z; [left | right; left]; reflexivity.
  - destruct (BSNClaims.bsn_not_nine_digits value Hnot) as [Hr | [Hv Hs]];
      unfold Spec.accepted, Spec.rejected in *.
    + rewrite Hr. split; [| split; [| split]]; try discriminate.
      * split; [discriminate|].
        intros (s & -> & Hl & Hd & Hn). exfalso.
        unfold new in Hr. rewrite (BSNChecksum.call_nine_LF _ s Hl Hd) in Hr.
        apply Z.eqb_neq in Hn. rewrite Hn in Hr. discriminate Hr.
      * right. left. reflexivity.
    + rewrite Hv. split; [| split; [| split]]; try discriminate.
      * split; [intros _; exact Hs | reflexivity].
      * right. right. reflexivity.
Qed.

Lemma bsn_call_outcomes_witness :
  List.length (str "111222333") = 9 /\ Spec.all_digits (str "111222333").
Proof.
  exact (proj1 (proj2 (proj2 (bsn_call_outcomes (str "111222333")))) eq_refl).
Defined.

(** No product of a weight and a difference of two digits is a multiple of
    11, because 11 is prime. *)
Lemma no_eleven_multiple w x :
  (1 <= Z.abs w <= 10)%Z -> (1 <= Z.abs x <= 9)%Z -> ~ (11 | w * x)%Z.
Proof.
  intros Hw Hx [k Hk].
  assert (E : (w = -10 \/ w = -9 \/ w = -8 \/ w = -7 \/ w = -6 \/ w = -5 \/ w = -4
               \/ w = -3 \/ w = -2 \/ w = -1 \/ w = 1 \/ w = 2 \/ w = 3 \/ w = 4
               \/ w = 5 \/ w = 6 \/ w = 7 \/ w = 8 \/ w = 9 \/ w = 10)%Z) by lia.
  repeat (destruct E as [-> | E]; [lia|]). lia.
Qed.

Lemma digit_val_diff c c' :
  is_digit c = true -> is_digit c' = true -> c' <> c ->
  (1 <= Z.abs (Py.digit_val c - Py.digit_val c') <= 9)%Z.
Proof.
  intros Hc Hc' Hne.
  assert (Py.digit_val c <> Py.digit_val c').
  { unfold Py.digit_val. intros E. apply Hne. apply PyFacts.code_inj. lia. }
  apply ZipMore.digit_val_bounds in Hc, Hc'. lia.
Qed.

Ltac fix_length l H :=
  repeat (destruct l as [|? l]; cbn [List.length] in H; try (exfalso; lia)).

Ltac pick_weight :=
  split; [cbn [In]; repeat first [left; reflexivity | right]
         | unfold Spec.bsn_sum, Spec.eleven_sum, Spec.digit;
           cbn -[Py.digit_val Z.add Z.mul Z.sub]; lia].

(** Changing the digit at one position changes the sum by the weight of the
    position times the difference of the digits. *)
Lemma bsn_sum_replace l1 c c' l2 :
  List.length (l1 ++ c :: l2) = 9 ->
  exists w, In w [9; 8; 7; 6; 5; 4; 3; 2; -1]%Z
    /\ (Spec.bsn_sum (l1 ++ c :: l2) - Spec.bsn_sum (l1 ++ c' :: l2)
        = w * (Py.digit_val c - Py.digit_val c'))%Z.
Proof.
  intros Hl. rewrite length_app in Hl. cbn [List.length] in Hl.
  destruct l1 as [|x0 [|x1 [|x2 [|x3 [|x4 [|x5 [|x6 [|x7 [|x8 l1]]]]]]]]];
    cbn [List.length] in Hl; try (exfalso; lia); fix_length l2 Hl; cbn [app];
    [ exists 9%Z | exists 8%Z | exists 7%Z | exists 6%Z | exists 5%Z
    | exists 4%Z | exists 3%Z | exists 2%Z | exists (-1)%Z ]; pick_weight.
Qed.

(** Swapping two neighbours changes the sum by their difference, by three
    times their difference for the last two digits. *)
Lemma bsn_sum_swap l1 x y l2 :
  List.length (l1 ++ x :: y :: l2) = 9 ->
  exists w, In w [1; 3]%Z
    /\ (Spec.bsn_sum (l1 ++ x :: y :: l2) - Spec.bsn_sum (l1 ++ y :: x :: l2)
        = w * (Py.digit_val x - Py.digit_val y))%Z.
Proof.
  intros Hl. rewrite length_app in Hl. cbn [List.length] in Hl.
  destruct l1 as [|x0 [|x1 [|x2 [|x3 [|x4 [|x5 [|x6 [|x7 l1]]]]]]]];
    cbn [List.length] in Hl; try (exfalso; lia); fix_length l2 Hl; cbn [app];
    [ exists 1%Z | exists 1%Z | exists 1%Z | exists 1%Z | exists 1%Z
    | exists 1%Z | exists 1%Z | exists 3%Z ]; pick_weight.
Qed.

(** From an accepted value of nine digits to another text of nine digits
    whose sum differs by a non-multiple of 11: the other text is rejected. *)
Lemma accepted_then_rejected v v' :
  List.length v = 9 -> Spec.all_digits v ->
  List.length v' = 9 -> Spec.all_digits v' ->
  ~ (11 | Spec.bsn_sum v - Spec.bsn_sum v')%Z ->
  Spec.accepted (call new v) -> Spec.rejected "Enter a valid BSN." (call new v').
Proof.
  intros Hl Hd Hl' Hd' Hdiff. unfold Spec.accepted, Spec.rejected, new.
  rewrite (BSNChecksum.call_nine _ v Hl Hd), (BSNChecksum.call_nine _ v' Hl' Hd').
  destruct (Spec.number v =? 0)%Z; [discriminate|].
  destruct (Z.eqb_spec (Spec.bsn_sum v mod 11) 0) as [E | E]; [intros _ | discriminate].
  destruct (Spec.number v' =? 0)%Z; [reflexivity|].
  destruct (Z.eqb_spec (Spec.bsn_sum v' mod 11) 0) as [E' | E']; [exfalso | reflexivity].
  apply Hdiff. apply Z.mod_divide in E, E'; try discriminate.
  apply Z.divide_sub_r; assumption.
Qed.

Lemma all_digits_replace l1 c c' l2 :
  Spec.all_digits (l1 ++ c :: l2) -> is_digit c' = true ->
  is_digit c = true /\ Spec.all_digits (l1 ++ c' :: l2).
Proof.
  unfold Spec.all_digits. intros H Hc'. apply Forall_app in H. destruct H as [H1 H2].
  inversion H2; subst. split; [assumption|].
  apply Forall_app. split; [assumption | constructor; assumption].
Qed.

Lemma all_digits_swap l1 x y l2 :
  Spec.all_digits (l1 ++ x :: y :: l2) ->
  is_digit x = true /\ is_digit y = true /\ Spec.all_digits (l1 ++ y :: x :: l2).
Proof.
  unfold Spec.all_digits. intros H. apply Forall_app in H. destruct H as [H1 H2].
  inversion H2 as [|? ? Hx H3]; subst. inversion H3 as [|? ? Hy H4]; subst.
  split; [assumption|]. split; [assumption|].
  apply Forall_app. split; [assumption | repeat constructor; assumption].
Qed.

(** X4. The checksum catches every single wrong digit: if a BSN is
    accepted, the text with one of its nine digits replaced by another digit
    is rejected. *)
Theorem bsn_single_digit_error l1 c c' l2 :
  List.length (l1 ++ c :: l2) = 9 -> Spec.all_digits (l1 ++ c :: l2) ->
  is_digit c' = true -> c' <> c ->
  Spec.accepted (call new (l1 ++ c :: l2)) ->
  Spec.rejected "Enter a valid BSN." (call new (l1 ++ c' :: l2)).
Proof.
  intros Hl Hd Hc' Hne.
  destruct (all_digits_replace l1 c c' l2 Hd Hc') as [Hc Hd'].
  apply accepted_then_rejected; try assumption.
  - rewrite length_app in *. exact Hl.
  - destruct (bsn_sum_replace l1 c c' l2 Hl) as (w & Hw & ->).
    apply no_eleven_multiple; [| apply digit_val_diff; assumption].
    cbn [In] in Hw. lia.
Qed.

Lemma bsn_single_digit_error_witness :
  Spec.rejected "Enter a valid BSN." (call new (str "111282333")).
Proof.
  assert (Hd : Spec.all_digits (str "1112" ++ "2"%char :: str "2333"))
    by (apply PyFacts.all_digits_forallb; reflexivity).
  assert (Hne : "8"%char <> "2"%char) by discriminate.
  exact (bsn_single_digit_error (str "1112") "2" "8" (str "2333")
           eq_refl Hd eq_refl Hne eq_refl).
Defined.

(** X5. The checksum catches every swap of two different neighbouring
    digits: if a BSN is accepted, the text with two adjacent digits exchanged
    is rejected. *)
Theorem bsn_transposition_error l1 x y l2 :
  List.length (l1 ++ x :: y :: l2) = 9 -> Spec.all_digits (l1 ++ x :: y :: l2) ->
  x <> y ->
  Spec.accepted (call new (l1 ++ x :: y :: l2)) ->
  Spec.rejected "Enter a valid BSN." (call new (l1 ++ y :: x :: l2)).
Proof.
  intros Hl Hd Hne.
  destruct (all_digits_swap l1 x y l2 Hd) as (Hx & Hy & Hd').
  apply accepted_then_rejected; try assumption.
  - rewrite length_app in *. exact Hl.
  - destruct (bsn_sum_swap l1 x y l2 Hl) as (w & Hw & ->).
    apply no_eleven_multiple; [| apply digit_val_diff; auto].
    cbn [In] in Hw. lia.
Qed.

Lemma bsn_transposition_error_witness :
  Spec.rejected "Enter a valid BSN." (call new (str "111223233")).
Proof.
  assert (Hd : Spec.all_digits (str "11122" ++ "2"%char :: "3"%char :: str "33"))
    by (apply PyFacts.all_digits_forallb; reflexivity).
  assert (Hne : "2"%char <> "3"%char) by discriminate.
  exact (bsn_transposition_error (str "11122") "2" "3" (str "33")
           eq_refl Hd Hne eq_refl).
Defined.

End BSNMore.

Module BSNChecksumEdge.
Import NLBSNFieldValidator.

(** One turn of the loop on a text given by its characters: the indexing is
    evaluated, and [int] of a digit is its value. *)
Ltac loop_step :=
  match goal with
  | |- context [Py.index ?l ?i] =>
      let r := eval vm_compute in (Py.index l i) in
      change (Py.index l i) with r; cbn [bind]
  end;
  try (rewrite PyFacts.int_digit by assumption; cbn [bind]).

(** X6. Called on its own, without the check of the pattern,
    [bsn_checksum_ok] (and so [sofi_checksum_ok]) does not answer for a text
    of fewer than eight digits, the empty text included: it raises
    [IndexError]. *)
Theorem bsn_checksum_ok_short value :
  Spec.all_digits value -> List.length value < 8 ->
  bsn_checksum_ok value = Raise IndexError
  /\ NLSoFiNumberFieldValidator.sofi_checksum_ok value = Raise IndexError.
Proof.
  intros Hd Hl. unfold NLSoFiNumberFieldValidator.sofi_checksum_ok.
  apply PyFacts.all_digits_forallb in Hd.
  assert (H : bsn_checksum_ok value = Raise IndexError); [| split; exact H].
  unfold bsn_checksum_ok.
  change (Py.range 9 1 (-1)) with [9; 8; 7; 6; 5; 4; 3; 2]%Z.
  destruct value as [|c0 [|c1 [|c2 [|c3 [|c4 [|c5 [|c6 [|c7 t]]]]]]]];
    cbn [List.length] in Hl; try lia;
    cbn [forallb] in Hd; repeat rewrite andb_true_iff in Hd;
    repeat match type of Hd with _ /\ _ => destruct Hd as [? Hd] end;
    cbn [checksum_loop]; repeat loop_step; reflexivity.
Qed.

Lemma bsn_checksum_ok_short_witness :
  bsn_checksum_ok (str "1234567") = Raise IndexError.
Proof.
  assert (Hd : Spec.all_digits (str "1234567"))
    by (apply PyFacts.all_digits_forallb; reflexivity).
  assert (Hl : List.length (str "1234567") < 8) by (simpl; lia).
  exact (proj1 (bsn_checksum_ok_short (str "1234567") Hd Hl)).
Defined.

End BSNChecksumEdge.

(** ** More on NLPhoneNumberFieldValidator *)

Module PhoneMore.
Import NLPhoneNumberFieldValidator.

(** X7. A '-', a white space character, a '(' or a ')' anywhere in the
    value does not change the outcome of the phone number validator. *)
Theorem phone_ignores_stripped s1 c s2 :
  Spec.phone_stripped c = true ->
  call (s1 ++ c :: s2) = call (s1 ++ s2).
Proof.
  intros Hc. rewrite <- PhoneFacts.stripped_class_spec in Hc.
  assert (E : Py.sub_class_empty stripped_class (s1 ++ c :: s2)
              = Py.sub_class_empty stripped_class (s1 ++ s2)).
  { unfold Py.sub_class_empty. rewrite !filter_app. cbn [filter].
    rewrite Hc. reflexivity. }
  unfold call. rewrite E. reflexivity.
Qed.

Lemma phone_ignores_stripped_witness :
  call (str "020-6241111") = call (str "0206241111").
Proof.
  exact (phone_ignores_stripped (str "020") "-" (str "6241111") eq_refl).
Defined.

End PhoneMore.

(** ** More on MTPostalCodeField *)

Module MTMore.
Import Re MTPostalCodeField.

Lemma AAA_0000_length s : Spec.AAA_0000 s -> List.length s = 8.
Proof. intros (a & b & c & d & e & f & g & -> & _). reflexivity. Qed.

(** X8. The Maltese postal code field accepts a non-empty text exactly when
    it is three uppercase letters, one space and four digits, or that
    followed by one line feed; an accepted text has 8 or 9 characters and
    every other non-empty text is rejected with the field's message. *)
Theorem mt_accepts_format value :
  value <> [] ->
  (Spec.accepted (validate value) <->
     Spec.AAA_0000 value \/ exists s, value = s ++ [LF] /\ Spec.AAA_0000 s)
  /\ (Spec.accepted (validate value) ->
      List.length value = 8 \/ List.length value = 9)
  /\ (Spec.accepted (validate value)
      \/ Spec.rejected "Enter a valid postal code in format AAA 0000." (validate value)).
Proof.
  intros _.
  destruct (MTFacts.validate_accepts_iff value) as [Hiff Hrej].
  split; [exact Hiff|]. split.
  - intros H. apply Hiff in H. destruct H as [H | (s & -> & H)];
      apply AAA_0000_length in H.
    + left. assumption.
    + right. rewrite length_app, H. reflexivity.
  - unfold Spec.accepted in *. destruct (validate value) as [[]|e] eqn:E.
    + left. reflexivity.
    + right. apply Hrej. discriminate.
Qed.

Lemma mt_accepts_format_witness :
  Spec.accepted (validate (str "VLT 1117")).
Proof.
  assert (Hne : str "VLT 1117" <> []) by discriminate.
  apply (proj2 (proj1 (mt_accepts_format (str "VLT 1117") Hne))).
  left. exists "V"%char, "L"%char, "T"%char, "1"%char, "1"%char, "1"%char, "7"%char.
  repeat split.
Defined.

End MTMore.

(** ** More on NLBankAccountNumberFieldValidator *)

Module BankMore.
Import Re ReFacts ClassFacts NLBankAccountNumberFieldValidator BankFacts.

Lemma call_no_match value :
  found (search regex value) = true -> List.length value <= 10 ->
  search no_leading_zeros_regex value = None ->
  call value = Raise (ValidationError invalid).
Proof.
  intros Hf Hl Hs. unfold call, RegexValidator_call. rewrite Hf. cbn [bind].
  rewrite (proj2 (Nat.ltb_ge _ _) Hl), Hs. reflexivity.
Qed.

(** The call after the zeros are stripped, by the length of what is left. *)
Lemma call_stripped value start :
  found (search regex value) = true -> List.length value <= 10 ->
  search no_leading_zeros_regex value = Some start ->
  (1 <= List.length (skipn start value) <= 7 -> call value = Ok tt)
  /\ (List.length (skipn start value) = 8 ->
      call value = Raise (ValidationError wrong_length))
  /\ (List.length (skipn start value) = 9 ->
      call value =
      (n <- eleven_test_sum ("0"%char :: skipn start value) ;;
       if negb (n mod 11 =? 0)%Z then Raise (ValidationError invalid) else Ok tt))
  /\ (List.length (skipn start value) = 10 ->
      call value =
      (n <- eleven_test_sum (skipn start value) ;;
       if negb (n mod 11 =? 0)%Z then Raise (ValidationError invalid) else Ok tt)).
Proof.
  intros Hf Hl Hs. unfold call, RegexValidator_call. rewrite Hf. cbn [bind].
  rewrite (proj2 (Nat.ltb_ge _ _) Hl), Hs. cbv zeta.
  set (len := List.length (skipn start value)).
  repeat split; intros H.
  - destruct (Nat.eqb_spec len 9); [lia|]. destruct (Nat.eqb_spec len 10); [lia|].
    rewrite (proj2 (Nat.leb_le 1 len)), (proj2 (Nat.leb_le len 7)) by lia. reflexivity.
  - rewrite H. reflexivity.
  - rewrite H. reflexivity.
  - rewrite H. reflexivity.
Qed.

(** With a line feed after the digits the match of [[1-9]+] is where it is
    without, and the line feed stays at the end of what is left. *)
Lemma search_nlz_LF s :
  Spec.all_digits s ->
  match search no_leading_zeros_regex (s ++ [LF]) with
  | Some start => skipn start (s ++ [LF]) = Spec.strip_leading_zeros s ++ [LF]
                  /\ Spec.strip_leading_zeros s <> []
  | None => Spec.strip_leading_zeros s = []
  end.
Proof.
  induction s as [|c s IH]; intros Hd; [reflexivity|].
  inversion Hd as [|? ? Hc Hd']; subst.
  cbn [app]. rewrite search_nlz_cons. cbn [Spec.strip_leading_zeros].
  rewrite (digit_zero_or_nonzero c Hc).
  destruct (in_range "1" "9" c); cbn [negb].
  - split; [reflexivity | discriminate].
  - specialize (IH Hd'). destruct (search no_leading_zeros_regex (s ++ [LF])); exact IH.
Qed.

(** The eleven test on nine digits and a line feed: [int] fails on the line
    feed. *)
Lemma eleven_test_sum_LF t :
  List.length t = 9 -> Spec.all_digits t ->
  eleven_test_sum (t ++ [LF]) = Raise ValueError.
Proof.
  intros Hl Hd. apply PyFacts.all_digits_forallb in Hd.
  destruct t as [|c0 [|c1 [|c2 [|c3 [|c4 [|c5 [|c6 [|c7 [|c8 [|c t]]]]]]]]]];
    try discriminate Hl.
  cbn [forallb] in Hd. rewrite !andb_true_iff in Hd.
  destruct Hd as (H0 & H1 & H2 & H3 & H4 & H5 & H6 & H7 & H8 & _).
  unfold eleven_test_sum.
  change (Py.range 1 11 1) with [1; 2; 3; 4; 5; 6; 7; 8; 9; 10]%Z.
  cbn [app combine Py.comprehension fst snd].
  rewrite (PyFacts.int_digit c0 H0), (PyFacts.int_digit c1 H1), (PyFacts.int_digit c2 H2),
    (PyFacts.int_digit c3 H3), (PyFacts.int_digit c4 H4), (PyFacts.int_digit c5 H5),
    (PyFacts.int_digit c6 H6), (PyFacts.int_digit c7 H7), (PyFacts.int_digit c8 H8).
  reflexivity.
Qed.

Lemma strip_leading_zeros_le s :
  List.length (Spec.strip_leading_zeros s) <= List.length s.
Proof.
  induction s as [|c s IH]; simpl; [lia|].
  destruct (ascii_eqb c "0"); simpl; lia.
Qed.

Lemma found_regex_LF s :
  s <> [] -> Spec.all_digits s -> found (search regex (s ++ [LF])) = true.
Proof.
  intros Hne Hd. apply found_regex. right. exists s.
  split; [reflexivity | split; [assumption | apply PyFacts.all_digits_forallb; assumption]].
Qed.

(** A call on at most 10 digits, by the number of digits left after the
    leading zeros (9 and 10 are the cases of the checksum). *)
Lemma call_digits value :
  Spec.all_digits value -> List.length value <= 10 ->
  (Spec.strip_leading_zeros value = [] -> call value = Raise (ValidationError invalid))
  /\ (1 <= List.length (Spec.strip_leading_zeros value) <= 7 -> call value = Ok tt)
  /\ (List.length (Spec.strip_leading_zeros value) = 8 ->
      call value = Raise (ValidationError wrong_length)).
Proof.
  intros Hd Hl.
  destruct value as [|c value']; [repeat split; simpl; intros; try lia; reflexivity|].
  set (value := c :: value') in *.
  assert (Hf : found (search regex value) = true)
    by (apply found_regex_digits; [discriminate | assumption]).
  pose proof (search_nlz_strips value Hd) as Hs.
  destruct (search no_leading_zeros_regex value) as [start|] eqn:Es.
  - destruct Hs as [E Hne].
    destruct (call_stripped value start Hf Hl Es) as (H17 & H8 & _).
    rewrite E in H17, H8. repeat split; try assumption.
    intros H. contradiction.
  - rewrite Hs. repeat split; cbn [List.length]; intros; try lia.
    apply call_no_match; assumption.
Qed.

(** X9. What the bank account validator does with digits that need no
    checksum.  For a value of at most 10 digits: if every digit is a zero (or
    the value is empty) it is rejected as invalid; if 1 to 7 digits are left
    after the leading zeros it is accepted without any checksum; if 8 digits
    are left it is rejected for its length. *)
Theorem bank_digits_outcomes value :
  Spec.all_digits value -> List.length value <= 10 ->
  (Spec.strip_leading_zeros value = [] ->
     Spec.rejected "Enter a valid bank account number." (call value))
  /\ (1 <= List.length (Spec.strip_leading_zeros value) <= 7 ->
     Spec.accepted (call value))
  /\ (List.length (Spec.strip_leading_zeros value) = 8 ->
     Spec.rejected "Bank account numbers have 1 - 7, 9 or 10 digits." (call value)).
Proof.
  intros Hd Hl. exact (call_digits value Hd Hl).
Qed.

Lemma bank_digits_outcomes_witness :
  Spec.accepted (call (str "0001234")).
Proof.
  assert (Hd : Spec.all_digits (str "0001234"))
    by (apply PyFacts.all_digits_forallb; reflexivity).
  assert (Hl : List.length (str "0001234") <= 10) by (simpl; lia).
  apply (proj1 (proj2 (bank_digits_outcomes (str "0001234") Hd Hl))).
  simpl. lia.
Defined.

End BankMore.

Module BankLineFeed.
Import Re ReFacts ClassFacts NLBankAccountNumberFieldValidator BankFacts BankMore.

(** A call on digits followed by one line feed, by the number of digits
    left after the leading zeros. *)
Lemma call_LF s :
  Spec.all_digits s -> List.length s <= 9 ->
  (Spec.strip_leading_zeros s = [] ->
     call (s ++ [LF]) = Raise (ValidationError invalid))
  /\ (1 <= List.length (Spec.strip_leading_zeros s) <= 6 -> call (s ++ [LF]) = Ok tt)
  /\ (List.length (Spec.strip_leading_zeros s) = 7 ->
     call (s ++ [LF]) = Raise (ValidationError wrong_length))
  /\ (8 <= List.length (Spec.strip_leading_zeros s) ->
     call (s ++ [LF]) = Raise ValueError).
Proof.
  intros Hd Hl.
  destruct s as [|c s']; [repeat split; simpl; intros; try lia; reflexivity|].
  set (s := c :: s') in *.
  assert (Hf : found (search regex (s ++ [LF])) = true)
    by (apply found_regex_LF; [discriminate | assumption]).
  assert (Hl' : List.length (s ++ [LF]) <= 10)
    by (rewrite length_app; cbn [List.length]; lia).
  pose proof (search_nlz_LF s Hd) as Hs.
  pose proof (strip_leading_zeros_le s) as Hle.
  pose proof (strip_leading_zeros_digits s Hd) as Hds.
  destruct (search no_leading_zeros_regex (s ++ [LF])) as [start|] eqn:Es.
  - destruct Hs as [E Hne].
    destruct (call_stripped (s ++ [LF]) start Hf Hl' Es) as (H17 & H8 & H9 & H10).
    rewrite E, length_app in H17, H8, H9, H10. cbn [List.length] in H17, H8, H9, H10.
    split; [intros H; contradiction|].
    split; [intros H; apply H17; lia|].
    split; [intros H; apply H8; lia|].
    intros H.
    assert (Hc : List.length (Spec.strip_leading_zeros s) = 8
                 \/ List.length (Spec.strip_leading_zeros s) = 9) by lia.
    destruct Hc as [Hc | Hc].
    + rewrite H9 by lia.
      change ("0"%char :: Spec.strip_leading_zeros s ++ [LF])
        with (("0"%char :: Spec.strip_leading_zeros s) ++ [LF]).
      rewrite eleven_test_sum_LF;
        [reflexivity | cbn [List.length]; lia | constructor; [reflexivity | assumption]].
    + rewrite H10 by lia.
      rewrite eleven_test_sum_LF; [reflexivity | assumption | assumption].
  - rewrite Hs. repeat split; cbn [List.length]; intros; try lia.
    apply call_no_match; assumption.
Qed.

Lemma call_outcome_cases value :
  call value = Ok tt
  \/ (exists m, call value = Raise (ValidationError m))
  \/ (call value = Raise ValueError
      /\ exists s, value = s ++ [LF] /\ Spec.all_digits s /\ List.length s <= 9
                   /\ 8 <= List.length (Spec.strip_leading_zeros s)).
Proof.
  destruct (found (search regex value)) eqn:Hf.
  2: { right. left. exists invalid.
       unfold call, RegexValidator_call. rewrite Hf. reflexivity. }
  destruct (Nat.ltb_spec 10 (List.length value)) as [Hlong | Hl].
  { right. left. exists wrong_length. rewrite (BankClaims.call_long value Hlong), Hf.
    reflexivity. }
  pose proof Hf as Hshape. apply found_regex in Hshape.
  destruct Hshape as [[Hne Hd] | (s & -> & Hne & Hd)]; apply PyFacts.all_digits_forallb in Hd.
  - pose proof (strip_leading_zeros_le value) as Hle.
    destruct (call_digits value Hd Hl) as (H0 & H17 & H8).
    destruct (Spec.strip_leading_zeros value) as [|z t] eqn:Et.
    + right. left. eexists. apply H0. reflexivity.
    + cbn [List.length] in *.
      destruct (Nat.le_gt_cases (S (List.length t)) 7) as [L7 | L7].
      * left. apply H17. lia.
      * destruct (Nat.eq_dec (S (List.length t)) 8) as [L8 | L8].
        -- right. left. eexists. apply H8. assumption.
        -- assert (Hc : List.length (Spec.strip_leading_zeros value) = 9
                        \/ List.length (Spec.strip_leading_zeros value) = 10)
             by (rewrite Et; cbn [List.length]; lia).
           rewrite (BankClaims.call_checksum value Hd Hl Hc).
           destruct (_ =? 0)%Z; [left; reflexivity | right; left; eexists; reflexivity].
  - assert (Hl9 : List.length s <= 9)
      by (rewrite length_app in Hl; cbn [List.length] in Hl; lia).
    destruct (call_LF s Hd Hl9) as (H0 & H16 & H7 & H8).
    destruct (Spec.strip_leading_zeros s) as [|z t] eqn:Et.
    + right. left. eexists. apply H0. reflexivity.
    + cbn [List.length] in *.
      destruct (Nat.le_gt_cases (S (List.length t)) 6) as [L6 | L6].
      * left. apply H16. lia.
      * destruct (Nat.eq_dec (S (List.length t)) 7) as [L7 | L7].
        -- right. left. eexists. apply H7. assumption.
        -- right. right. split; [apply H8; lia|].
           exists s. rewrite Et. cbn [List.length].
           split; [reflexivity | split; [assumption | split; [assumption | lia]]].
Qed.

(** X10. The bank account validator raises [ValueError] exactly on a value
    of at most 9 digits followed by one line feed with 8 or 9 digits left
    after the leading zeros ([$] lets the line feed through and the eleven
    test calls [int] on it); it never raises [IndexError].  On every other
    value it accepts or raises a validation error. *)
Theorem bank_value_error_iff value :
  (call value = Raise ValueError <->
     exists s, value = s ++ [LF] /\ Spec.all_digits s /\ List.length s <= 9
               /\ 8 <= List.length (Spec.strip_leading_zeros s))
  /\ call value <> Raise IndexError
  /\ (call value = Ok tt \/ (exists m, call value = Raise (ValidationError m))
      \/ call value = Raise ValueError).
Proof.
  pose proof (call_outcome_cases value) as H.
  split; [| split].
  - split.
    + intros E. rewrite E in H.
      destruct H as [H | [[m H] | [_ H]]]; [discriminate H | discriminate H | exact H].
    + intros (s & -> & Hd & Hl & H8). apply (call_LF s Hd Hl). assumption.
  - destruct H as [-> | [[m ->] | [-> _]]]; discriminate.
  - destruct H as [H | [H | [H _]]]; auto.
Qed.

Lemma bank_value_error_iff_witness :
  exists s, str "12345678" ++ [LF] = s ++ [LF] /\ Spec.all_digits s /\ List.length s <= 9
            /\ 8 <= List.length (Spec.strip_leading_zeros s).
Proof.
  exact (proj1 (proj1 (bank_value_error_iff (str "12345678" ++ [LF]))) eq_refl).
Defined.

(** X11. A line feed after the digits gets through when no checksum is
    needed: a value of digits followed by one line feed, with 1 to 6 digits
    left after the leading zeros, is accepted; with 7 digits left it is
    rejected for its length. *)
Theorem bank_line_feed_accepted s :
  Spec.all_digits s -> List.length s <= 9 ->
  (1 <= List.length (Spec.strip_leading_zeros s) <= 6 ->
     Spec.accepted (call (s ++ [LF])))
  /\ (List.length (Spec.strip_leading_zeros s) = 7 ->
     Spec.rejected "Bank account numbers have 1 - 7, 9 or 10 digits." (call (s ++ [LF]))).
Proof.
  intros Hd Hl. destruct (call_LF s Hd Hl) as (_ & H16 & H7 & _).
  split; assumption.
Qed.

Lemma bank_line_feed_accepted_witness :
  Spec.accepted (call (str "123" ++ [LF])).
Proof.
  assert (Hd : Spec.all_digits (str "123"))
    by (apply PyFacts.all_digits_forallb; reflexivity).
  assert (Hl : List.length (str "123") <= 9) by (simpl; lia).
  apply (proj1 (bank_line_feed_accepted (str "123") Hd Hl)).
  simpl. lia.
Defined.

End BankLineFeed.

Module BankChecksum.
Import Re NLBankAccountNumberFieldValidator BankFacts BankMore BSNMore.

Lemma all_digits_zeros n s :
  Spec.all_digits s -> Spec.all_digits (repeat "0"%char n ++ s).
Proof.
  intros Hd. induction n as [|n IH]; [assumption|].
  cbn [repeat app]. constructor; [reflexivity | assumption].
Qed.

(** X12. Leading zeros do not matter as long as the raw value stays within
    10 characters: a run of digits gets the same outcome with any number of
    zeros in front. *)
Theorem bank_leading_zeros n s :
  Spec.all_digits s -> n + List.length s <= 10 ->
  call (repeat "0"%char n ++ s) = call s.
Proof.
  intros Hd. induction n as [|n IH]; intros Hl; [reflexivity|].
  cbn [repeat app]. rewrite <- IH by lia.
  destruct (repeat "0"%char n ++ s) as [|c t] eqn:E; [reflexivity|].
  rewrite <- E. apply BankClaims.call_leading_zero.
  - apply found_regex_digits; [rewrite E; discriminate | apply all_digits_zeros; assumption].
  - rewrite length_app, repeat_length. lia.
Qed.

Lemma bank_leading_zeros_witness :
  call (str "0001234") = call (str "1234").
Proof.
  assert (Hd : Spec.all_digits (str "1234"))
    by (apply PyFacts.all_digits_forallb; reflexivity).
  assert (Hl : 3 + List.length (str "1234") <= 10) by (simpl; lia).
  exact (bank_leading_zeros 3 (str "1234") Hd Hl).
Defined.

Lemma strip_length_eq t :
  List.length (Spec.strip_leading_zeros t) = List.length t ->
  Spec.strip_leading_zeros t = t.
Proof.
  destruct t as [|c t]; [reflexivity|]. cbn [Spec.strip_leading_zeros].
  destruct (ascii_eqb c "0"); [|reflexivity].
  pose proof (strip_leading_zeros_le t). cbn [List.length]. lia.
Qed.

(** Ten digits that do not start with two zeros are the value of the
    eleven test. *)
Lemma pad10_strip_ten v :
  List.length v = 10 -> 9 <= List.length (Spec.strip_leading_zeros v) ->
  Spec.pad10 (Spec.strip_leading_zeros v) = v.
Proof.
  destruct v as [|c t]; [discriminate|]. cbn [Spec.strip_leading_zeros List.length].
  intros Hl. destruct (ascii_eqb c "0") eqn:E; intros H9.
  - apply PyFacts.ascii_eqb_eq in E. subst c.
    pose proof (strip_leading_zeros_le t).
    rewrite strip_length_eq by lia.
    unfold Spec.pad10. replace (List.length t) with 9 by lia. reflexivity.
  - unfold Spec.pad10. cbn [List.length]. replace (List.length t) with 9 by lia.
    reflexivity.
Qed.

Lemma eleven_sum_replace l1 c c' l2 :
  List.length (l1 ++ c :: l2) = 10 ->
  exists w, In w [1; 2; 3; 4; 5; 6; 7; 8; 9; 10]%Z
    /\ (Spec.eleven_sum (l1 ++ c :: l2) - Spec.eleven_sum (l1 ++ c' :: l2)
        = w * (Py.digit_val c - Py.digit_val c'))%Z.
Proof.
  intros Hl. rewrite length_app in Hl. cbn [List.length] in Hl.
  destruct l1 as [|x0 [|x1 [|x2 [|x3 [|x4 [|x5 [|x6 [|x7 [|x8 [|x9 l1]]]]]]]]]];
    cbn [List.length] in Hl; try (exfalso; lia); fix_length l2 Hl; cbn [app];
    [ exists 1%Z | exists 2%Z | exists 3%Z | exists 4%Z | exists 5%Z
    | exists 6%Z | exists 7%Z | exists 8%Z | exists 9%Z | exists 10%Z ]; pick_weight.
Qed.

Lemma eleven_sum_swap l1 x y l2 :
  List.length (l1 ++ x :: y :: l2) = 10 ->
  (Spec.eleven_sum (l1 ++ x :: y :: l2) - Spec.eleven_sum (l1 ++ y :: x :: l2)
   = -1 * (Py.digit_val x - Py.digit_val y))%Z.
Proof.
  intros Hl. rewrite length_app in Hl. cbn [List.length] in Hl.
  destruct l1 as [|x0 [|x1 [|x2 [|x3 [|x4 [|x5 [|x6 [|x7 [|x8 l1]]]]]]]]];
    cbn [List.length] in Hl; try (exfalso; lia); fix_length l2 Hl; cbn [app];
    unfold Spec.eleven_sum, Spec.digit; cbn -[Py.digit_val Z.add Z.mul Z.sub]; lia.
Qed.

Lemma bank_accepted_then_rejected v v' :
  List.length v = 10 -> Spec.all_digits v -> 9 <= List.length (Spec.strip_leading_zeros v) ->
  List.length v' = 10 -> Spec.all_digits v' ->
  9 <= List.length (Spec.strip_leading_zeros v') ->
  ~ (11 | Spec.eleven_sum v - Spec.eleven_sum v')%Z ->
  Spec.accepted (call v) -> Spec.rejected "Enter a valid bank account number." (call v').
Proof.
  intros Hl Hd Hs Hl' Hd' Hs' Hdiff. unfold Spec.accepted, Spec.rejected.
  pose proof (strip_leading_zeros_le v). pose proof (strip_leading_zeros_le v').
  rewrite (BankClaims.call_checksum v Hd) by lia.
  rewrite (BankClaims.call_checksum v' Hd') by lia.
  rewrite (pad10_strip_ten v Hl Hs), (pad10_strip_ten v' Hl' Hs').
  destruct (Z.eqb_spec (Spec.eleven_sum v mod 11) 0) as [E | E]; [intros _ | discriminate].
  destruct (Z.eqb_spec (Spec.eleven_sum v' mod 11) 0) as [E' | E']; [exfalso | reflexivity].
  apply Hdiff. apply Z.mod_divide in E, E'; try discriminate.
  apply Z.divide_sub_r; assumption.
Qed.

(** X13. The eleven test catches every single wrong digit in a number of
    ten digits, as long as neither value starts with two zeros (so that 9 or
    10 digits are left after the leading zeros and the test is run): if the
    number is accepted, the number with one digit replaced by another digit
    is rejected as invalid. *)
Theorem bank_single_digit_error l1 c c' l2 :
  List.length (l1 ++ c :: l2) = 10 -> Spec.all_digits (l1 ++ c :: l2) ->
  is_digit c' = true -> c' <> c ->
  9 <= List.length (Spec.strip_leading_zeros (l1 ++ c :: l2)) ->
  9 <= List.length (Spec.strip_leading_zeros (l1 ++ c' :: l2)) ->
  Spec.accepted (call (l1 ++ c :: l2)) ->
  Spec.rejected "Enter a valid bank account number." (call (l1 ++ c' :: l2)).
Proof.
  intros Hl Hd Hc' Hne Hs Hs'.
  destruct (all_digits_replace l1 c c' l2 Hd Hc') as [Hc Hd'].
  apply bank_accepted_then_rejected; try assumption.
  - rewrite length_app in *. exact Hl.
  - destruct (eleven_sum_replace l1 c c' l2 Hl) as (w & Hw & ->).
    apply no_eleven_multiple; [| apply digit_val_diff; assumption].
    cbn [In] in Hw. lia.
Qed.

Lemma bank_single_digit_error_witness :
  Spec.rejected "Enter a valid bank account number." (call (str "0123456788")).
Proof.
  assert (Hd : Spec.all_digits (str "012345678" ++ "9"%char :: []))
    by (apply PyFacts.all_digits_forallb; reflexivity).
  assert (Hne : "8"%char <> "9"%char) by discriminate.
  assert (Hs : 9 <= List.length (Spec.strip_leading_zeros (str "012345678" ++ "9"%char :: [])))
    by (simpl; lia).
  assert (Hs' : 9 <= List.length (Spec.strip_leading_zeros (str "012345678" ++ "8"%char :: [])))
    by (simpl; lia).
  exact (bank_single_digit_error (str "012345678") "9" "8" [] eq_refl Hd eq_refl Hne Hs Hs'
           eq_refl).
Defined.

(** X14. The eleven test catches every swap of two different neighbouring
    digits in a number of ten digits, under the same condition: if the number
    is accepted, the number with two adjacent digits exchanged is rejected
    as invalid. *)
Theorem bank_transposition_error l1 x y l2 :
  List.length (l1 ++ x :: y :: l2) = 10 -> Spec.all_digits (l1 ++ x :: y :: l2) ->
  x <> y ->
  9 <= List.length (Spec.strip_leading_zeros (l1 ++ x :: y :: l2)) ->
  9 <= List.length (Spec.strip_leading_zeros (l1 ++ y :: x :: l2)) ->
  Spec.accepted (call (l1 ++ x :: y :: l2)) ->
  Spec.rejected "Enter a valid bank account number." (call (l1 ++ y :: x :: l2)).
Proof.
  intros Hl Hd Hne Hs Hs'.
  destruct (all_digits_swap l1 x y l2 Hd) as (Hx & Hy & Hd').
  apply bank_accepted_then_rejected; try assumption.
  - rewrite length_app in *. exact Hl.
  - rewrite (eleven_sum_swap l1 x y l2 Hl).
    apply no_eleven_multiple; [lia | apply digit_val_diff; auto].
Qed.

Lemma bank_transposition_error_witness :
  Spec.rejected "Enter a valid bank account number." (call (str "1023456789")).
Proof.
  assert (Hd : Spec.all_digits ([] ++ "0"%char :: "1"%char :: str "23456789"))
    by (apply PyFacts.all_digits_forallb; reflexivity).
  assert (Hne : "0"%char <> "1"%char) by discriminate.
  assert (Hs : 9 <= List.length
                 (Spec.strip_leading_zeros ([] ++ "0"%char :: "1"%char :: str "23456789")))
    by (simpl; lia).
  assert (Hs' : 9 <= List.length
                  (Spec.strip_leading_zeros ([] ++ "1"%char :: "0"%char :: str "23456789")))
    by (simpl; lia).
  exact (bank_transposition_error [] "0" "1" (str "23456789") eq_refl Hd Hne Hs Hs' eq_refl).
Defined.

End BankChecksum.
